(** * AIG class-list processor (aig_processor.py)

    A shallow embedding of [AIGClassListProcessor]: the PDF line parser, the
    Word-table parser, name normalisation and matching, and the classroom
    sheet reconciler, followed by the properties of the specification.

    Text is modelled as [string] over 7-bit characters.  The Python built-ins
    used by the source ([str.strip], [str.split], [str.title], [str.upper],
    [str.lower], [str.isdigit], [re.sub(r'\s+', ' ', _)]) are given their
    behaviour on ASCII text; a character with code 128 or above is treated as
    an uncased, non-blank, non-digit symbol. *)

From Stdlib Require Import Ascii String DecimalString Arith Bool Lia.
From stdpp Require Import gmap strings list fin_maps sorting.

(** ** Characters *)

Module Char.

Local Open Scope nat_scope.

Definition code (c : ascii) : nat := nat_of_ascii c.

(** [str.isspace] on one ASCII character: TAB, LF, VT, FF, CR, the four
    separators FS GS RS US, and the space. *)
Definition isspace (c : ascii) : bool :=
  let n := code c in
  ((9 <=? n) && (n <=? 13)) || ((28 <=? n) && (n <=? 32)).

Definition isdigit (c : ascii) : bool :=
  let n := code c in (48 <=? n) && (n <=? 57).

Definition isupper (c : ascii) : bool :=
  let n := code c in (65 <=? n) && (n <=? 90).

Definition islower (c : ascii) : bool :=
  let n := code c in (97 <=? n) && (n <=? 122).

Definition iscased (c : ascii) : bool := isupper c || islower c.

Definition upper (c : ascii) : ascii :=
  if islower c then ascii_of_nat (code c - 32) else c.

Definition lower (c : ascii) : ascii :=
  if isupper c then ascii_of_nat (code c + 32) else c.

Definition eqb (a b : ascii) : bool := Ascii.eqb a b.

End Char.

Open Scope string_scope.

(** ** Strings: the Python string methods the processor calls *)

Module Str.

Definition is_empty (s : string) : bool :=
  match s with EmptyString => true | String _ _ => false end.

(** The next character exists and is blank. *)
Definition starts_blank (s : string) : bool :=
  match s with EmptyString => false | String c _ => Char.isspace c end.

(** The next character exists and is not blank. *)
Definition starts_token (s : string) : bool :=
  match s with EmptyString => false | String c _ => negb (Char.isspace c) end.

Fixpoint lstrip (s : string) : string :=
  match s with
  | EmptyString => EmptyString
  | String c s' => if Char.isspace c then lstrip s' else s
  end.

Fixpoint rstrip (s : string) : string :=
  match s with
  | EmptyString => EmptyString
  | String c s' =>
      let r := rstrip s' in
      if Char.isspace c && is_empty r then EmptyString else String c r
  end.

(** [s.strip()] *)
Definition strip (s : string) : string := rstrip (lstrip s).

(** [re.sub(r'\s+', ' ', s)]: every maximal run of blanks becomes one space.
    A blank followed by another blank is dropped, the last blank of a run is
    replaced by a space. *)
Fixpoint collapse_ws (s : string) : string :=
  match s with
  | EmptyString => EmptyString
  | String c s' =>
      if Char.isspace c
      then (if starts_blank s' then collapse_ws s' else String " " (collapse_ws s'))
      else String c (collapse_ws s')
  end.

(** [s.title()]: a cased character is upper-cased when the previous character
    is not cased and lower-cased when it is. *)
Definition title_char (previous_is_cased : bool) (c : ascii) : ascii :=
  if previous_is_cased then Char.lower c else Char.upper c.

Fixpoint title_from (previous_is_cased : bool) (s : string) : string :=
  match s with
  | EmptyString => EmptyString
  | String c s' =>
      String (title_char previous_is_cased c) (title_from (Char.iscased c) s')
  end.

Definition title (s : string) : string := title_from false s.

Fixpoint upper (s : string) : string :=
  match s with
  | EmptyString => EmptyString
  | String c s' => String (Char.upper c) (upper s')
  end.

Fixpoint lower (s : string) : string :=
  match s with
  | EmptyString => EmptyString
  | String c s' => String (Char.lower c) (lower s')
  end.

Fixpoint all_digits (s : string) : bool :=
  match s with
  | EmptyString => true
  | String c s' => Char.isdigit c && all_digits s'
  end.

(** [s.isdigit()]: at least one character, all of them digits. *)
Definition isdigit (s : string) : bool := negb (is_empty s) && all_digits s.

(** [s.split()]: the maximal runs of non-blank characters. *)
Fixpoint split (s : string) : list string :=
  match s with
  | EmptyString => []
  | String c s' =>
      if Char.isspace c then split s'
      else if starts_token s'
           then match split s' with
                | t :: ts => String c t :: ts
                | [] => [String c EmptyString]
                end
           else String c EmptyString :: split s'
  end.

(** [s.split('\n')]: the pieces between line feeds, empty pieces included. *)
Fixpoint split_lines (s : string) : list string :=
  match s with
  | EmptyString => [EmptyString]
  | String c s' =>
      if Char.eqb c "010"%char then EmptyString :: split_lines s'
      else match split_lines s' with
           | l :: ls => String c l :: ls
           | [] => [String c EmptyString]
           end
  end.

(** [sep.join(parts)] *)
Fixpoint join (sep : string) (parts : list string) : string :=
  match parts with
  | [] => EmptyString
  | [p] => p
  | p :: ps => p +:+ sep +:+ join sep ps
  end.

(** [s.startswith(p)] *)
Fixpoint startswith (s p : string) : bool :=
  match p, s with
  | EmptyString, _ => true
  | String _ _, EmptyString => false
  | String a p', String b s' => Char.eqb a b && startswith s' p'
  end.

(** [p in s] for strings. *)
Fixpoint contains (s p : string) : bool :=
  startswith s p ||
  match s with
  | EmptyString => false
  | String _ s' => contains s' p
  end.

(** [s.replace(',', '')] *)
Fixpoint remove_commas (s : string) : string :=
  match s with
  | EmptyString => EmptyString
  | String c s' =>
      if Char.eqb c ","%char then remove_commas s' else String c (remove_commas s')
  end.

(** The last character exists and is blank. *)
Fixpoint ends_blank (s : string) : bool :=
  match s with
  | EmptyString => false
  | String c s' => if is_empty s' then Char.isspace c else ends_blank s'
  end.

(** Every blank of [s] is a single space placed before a token: the shape of
    a string that [strip] and [collapse_ws] leave as it is. *)
Fixpoint tidy (s : string) : bool :=
  match s with
  | EmptyString => true
  | String c s' =>
      (if Char.isspace c then Char.eqb c " "%char && starts_token s' else true)
      && tidy s'
  end.

(** [str(n)] for a non-negative integer. *)
Definition of_nat (n : nat) : string := NilZero.string_of_uint (Nat.to_uint n).

(** [str(b)] for a boolean. *)
Definition of_bool (b : bool) : string := if b then "True" else "False".

End Str.

(** ** Name normalisation *)

(** [_normalize_name]: strip, collapse blank runs, title-case. *)
Definition _normalize_name (name : string) : string :=
  Str.title (Str.collapse_ws (Str.strip name)).

(** ** Data model *)

(** One entry of [self.student_details]. *)
Record student_info := StudentInfo {
  name : string;
  student_id : string;
  grade : string;
  reading : bool;
  math : bool
}.

(** [self.stats] *)
Record statistics := Statistics {
  total_students : nat;
  aig_math_only : nat;
  aig_reading_only : nat;
  aig_both : nat;
  aig_none : nat;
  td_only_students : gset string
}.

Inductive level := DEBUG | INFO | WARNING | ERROR.

Record log_record := LogRecord { levelname : level; message : string }.

(** A spreadsheet cell as pandas hands it over: missing ([NaN]) or a value,
    kept as the text [str(value)]. *)
Inductive cell := NaN | Text (s : string).

(** A cell written by [ws.append]. *)
Inductive value := VCell (c : cell) | VStr (s : string) | VBool (b : bool).

(** [PatternFill(start_color=c, end_color=c, fill_type='solid')] *)
Record pattern_fill := PatternFill { start_color : string }.

(** What the reconciler does to one output worksheet: the rows appended, in
    order, and the fills applied to columns A to E of a numbered row. *)
Record worksheet := Worksheet {
  ws_title : string;
  tabColor : option string;
  appended : list (list value);
  fills : list (nat * pattern_fill)
}.

(** The constructor arguments. *)
Record config := Config {
  pdf_file_path : string;
  excel_file_path : string;
  word_file_path : option string;
  output_dir : string
}.

(** The mutable attributes of an [AIGClassListProcessor], the records sent to
    the module logger (oldest first) and the workbooks saved so far.  An
    absent [student_details] attribute is the empty map: every read of it in
    the source is guarded by [hasattr]. *)
Record processor := Processor {
  cfg : config;
  aig_students_math : gset string;
  aig_students_reading : gset string;
  students_in_excel : gset string;
  students_in_sources : gset string;
  stats : statistics;
  student_details : gmap string student_info;
  log : list log_record;
  saved : list (string * list worksheet)
}.

(** [os.path.join(a, b)] on POSIX paths. *)
Definition path_join (a b : string) : string :=
  if Str.startswith b "/" then b
  else if Str.is_empty a then b
  else if Str.startswith (String.rev a) "/" then a +:+ b
  else a +:+ "/" +:+ b.

Definition output_file (c : config) : string :=
  path_join (output_dir c) "updated_class_lists.xlsx".
Definition aig_only_file (c : config) : string :=
  path_join (output_dir c) "updated_class_lists_AIG_Only.xlsx".
Definition missing_students_file (c : config) : string :=
  path_join (output_dir c) "students_not_in_excel.xlsx".

Definition colors_math : pattern_fill := PatternFill "ADD8E6".
Definition colors_reading : pattern_fill := PatternFill "FFA500".
Definition colors_both : pattern_fill := PatternFill "FFFF00".

(** [__init__] *)
Definition new_processor (c : config) : processor :=
  {| cfg := c;
     aig_students_math := ∅;
     aig_students_reading := ∅;
     students_in_excel := ∅;
     students_in_sources := ∅;
     stats := Statistics 0 0 0 0 0 ∅;
     student_details := ∅;
     log := [];
     saved := [] |}.

(** *** Field updates *)

Definition emit (l : level) (m : string) (p : processor) : processor :=
  {| cfg := cfg p;
     aig_students_math := aig_students_math p;
     aig_students_reading := aig_students_reading p;
     students_in_excel := students_in_excel p;
     students_in_sources := students_in_sources p;
     stats := stats p;
     student_details := student_details p;
     log := log p ++ [LogRecord l m];
     saved := saved p |}.

Definition with_index (m r : gset string) (p : processor) : processor :=
  {| cfg := cfg p;
     aig_students_math := m;
     aig_students_reading := r;
     students_in_excel := students_in_excel p;
     students_in_sources := students_in_sources p;
     stats := stats p;
     student_details := student_details p;
     log := log p;
     saved := saved p |}.

Definition with_details (d : gmap string student_info) (p : processor) : processor :=
  {| cfg := cfg p;
     aig_students_math := aig_students_math p;
     aig_students_reading := aig_students_reading p;
     students_in_excel := students_in_excel p;
     students_in_sources := students_in_sources p;
     stats := stats p;
     student_details := d;
     log := log p;
     saved := saved p |}.

Definition with_stats (s : statistics) (p : processor) : processor :=
  {| cfg := cfg p;
     aig_students_math := aig_students_math p;
     aig_students_reading := aig_students_reading p;
     students_in_excel := students_in_excel p;
     students_in_sources := students_in_sources p;
     stats := s;
     student_details := student_details p;
     log := log p;
     saved := saved p |}.

Definition with_seen (in_excel in_sources : gset string) (p : processor) : processor :=
  {| cfg := cfg p;
     aig_students_math := aig_students_math p;
     aig_students_reading := aig_students_reading p;
     students_in_excel := in_excel;
     students_in_sources := in_sources;
     stats := stats p;
     student_details := student_details p;
     log := log p;
     saved := saved p |}.

Definition with_saved (path : string) (wb : list worksheet) (p : processor) : processor :=
  {| cfg := cfg p;
     aig_students_math := aig_students_math p;
     aig_students_reading := aig_students_reading p;
     students_in_excel := students_in_excel p;
     students_in_sources := students_in_sources p;
     stats := stats p;
     student_details := student_details p;
     log := log p;
     saved := saved p ++ [(path, wb)] |}.

(** [self.stats['td_only_students'].add(n)] *)
Definition add_td_only (n : string) (p : processor) : processor :=
  let s := stats p in
  with_stats (Statistics (total_students s) (aig_math_only s) (aig_reading_only s)
                         (aig_both s) (aig_none s) ({[ n ]} ∪ td_only_students s)) p.

(** The two conditional [self.aig_students[...].add(n)]. *)
Definition add_to_index (n : string) (is_aig_math is_aig_reading : bool)
    (p : processor) : processor :=
  with_index (if is_aig_math then {[ n ]} ∪ aig_students_math p else aig_students_math p)
             (if is_aig_reading then {[ n ]} ∪ aig_students_reading p
              else aig_students_reading p) p.

(** [self.students_in_sources.add(n)] *)
Definition add_source (n : string) (p : processor) : processor :=
  with_seen (students_in_excel p) ({[ n ]} ∪ students_in_sources p) p.

(** [x in [..]] for a list of strings. *)
Definition in_list (x : string) (l : list string) : bool :=
  existsb (String.eqb x) l.

(** ** PDF record parser: [_parse_aig_text] *)

(** The loop that fills [name_parts] and [data_parts]: the tokens up to and
    including the first one holding a comma, and the tokens after it. *)
Fixpoint split_name_data (parts : list string) : list string * list string :=
  match parts with
  | [] => ([], [])
  | part :: rest =>
      if Str.contains part ","
      then ([part], rest)
      else let '(name_parts, data_parts) := split_name_data rest in
           (part :: name_parts, data_parts)
  end.

(** [student_id_idx]: the index, counted from [i], of the first token that is
    numeric and has at least 8 characters; [-1] when there is none. *)
Fixpoint find_student_id (i : Z) (data_parts : list string) : Z :=
  match data_parts with
  | [] => (-1)%Z
  | part :: rest =>
      if Str.isdigit part && (8 <=? String.length part)%nat
      then i
      else find_student_id (i + 1)%Z rest
  end.

(** One iteration of the loop over the lines of the PDF text.  Nothing in the
    [try] block can raise [ValueError] or [IndexError] (slices are total and
    the indexing is guarded by the length test), so its handler is absent. *)
Definition parse_aig_line (p : processor) (raw : string) : processor :=
  let line := Str.strip raw in
  if Str.is_empty line then p
  else if Str.contains line "Name Student Id Grade Reading Math"
          || Str.contains line "School Roster" then p
  else if Str.contains line "," then
    let parts := Str.split line in
    let '(name_parts, data_parts) := split_name_data parts in
    let student_id_idx := find_student_id 0 data_parts in
    if (1 <=? student_id_idx)%Z then
      let first_name_parts := take (Z.to_nat student_id_idx) data_parts in
      let first_name := Str.join " " first_name_parts in
      let remaining_parts := drop (Z.to_nat student_id_idx) data_parts in
      match remaining_parts with
      | student_id :: grade :: reading_status :: math_status :: _ =>
          let full_name := Str.join " " name_parts +:+ " " +:+ first_name in
          let normalized_name := _normalize_name full_name in
          let is_aig_reading := in_list (Str.upper reading_status) ["TD"; "AG"; "IG"; "AIG"] in
          let is_aig_math := in_list (Str.upper math_status) ["TD"; "AG"; "IG"; "AIG"] in
          let is_td_only_reading := String.eqb (Str.upper reading_status) "TD" in
          let is_td_only_math := String.eqb (Str.upper math_status) "TD" in
          let p1 :=
            if (is_td_only_reading || is_td_only_math)
               && negb (in_list (Str.upper reading_status) ["AG"; "IG"; "AIG"]
                        || in_list (Str.upper math_status) ["AG"; "IG"; "AIG"])
            then add_td_only normalized_name p else p in
          let student_info :=
            StudentInfo normalized_name student_id grade is_aig_reading is_aig_math in
          let p2 := add_to_index normalized_name is_aig_math is_aig_reading p1 in
          let p3 := with_details (<[normalized_name := student_info]> (student_details p2)) p2 in
          let p4 := add_source normalized_name p3 in
          emit DEBUG ("Added student: " +:+ normalized_name +:+ ", Grade: " +:+ grade
                      +:+ ", Math: " +:+ Str.of_bool is_aig_math
                      +:+ ", Reading: " +:+ Str.of_bool is_aig_reading) p4
      | _ => p
      end
    else p
  else p.

Definition _parse_aig_text (p : processor) (text : string) : processor :=
  foldl parse_aig_line p (Str.split_lines text).

(** ** Word table parser *)

(** [_process_word_name] *)
Definition _process_word_name (name_text : string) : string :=
  let name_text := Str.strip name_text in
  if Str.contains name_text "," then _normalize_name name_text
  else
    let parts := Str.split name_text in
    if (2 <=? length parts)%nat then
      match parts with
      | first :: rest =>
          let last := Str.join " " rest in
          _normalize_name (last +:+ ", " +:+ first)
      | [] => _normalize_name name_text
      end
    else _normalize_name name_text.

(** The body of the row loop of [extract_aig_students_from_word], for the
    cell texts of one row that is not a header row. *)
Definition process_word_row (p : processor) (cells : list string) : processor :=
  match cells with
  | c0 :: c1 :: c2 :: _ =>
      let name_text := Str.strip c0 in
      let reading_text := Str.strip c1 in
      let math_text := Str.strip c2 in
      if negb (Str.is_empty name_text) then
        let normalized_name := _process_word_name name_text in
        let is_aig_reading := in_list (Str.upper reading_text) ["TD"; "AIG"] in
        let is_aig_math := in_list (Str.upper math_text) ["TD"; "AIG"] in
        let is_td_only_reading := String.eqb (Str.upper reading_text) "TD" in
        let is_td_only_math := String.eqb (Str.upper math_text) "TD" in
        let p1 :=
          if (is_td_only_reading || is_td_only_math)
             && negb (String.eqb (Str.upper reading_text) "AIG")
             && negb (String.eqb (Str.upper math_text) "AIG")
          then add_td_only normalized_name p else p in
        let details :=
          match student_details p1 !! normalized_name with
          | Some old =>
              <[normalized_name :=
                  StudentInfo (name old) (student_id old) (grade old)
                              (reading old || is_aig_reading)
                              (math old || is_aig_math)]> (student_details p1)
          | None =>
              <[normalized_name :=
                  StudentInfo normalized_name "N/A" "N/A" is_aig_reading is_aig_math]>
                (student_details p1)
          end in
        let p2 := with_details details p1 in
        let p3 := add_to_index normalized_name is_aig_math is_aig_reading p2 in
        let p4 := add_source normalized_name p3 in
        emit DEBUG ("Added from Word: " +:+ normalized_name
                    +:+ ", Math: " +:+ Str.of_bool is_aig_math
                    +:+ ", Reading: " +:+ Str.of_bool is_aig_reading) p4
      else p
  | _ => p
  end.

(** The rows of one table, the first one skipped. *)
Definition process_word_table (p : processor) (rows : list (list string)) : processor :=
  foldl process_word_row p (drop 1 rows).

Definition process_word_tables (p : processor)
    (tables : list (list (list string))) : processor :=
  foldl process_word_table p tables.

(** ** Matching a classroom name against the sources *)

(** [_names_match] *)
Definition _names_match (name1 name2 : string) : bool :=
  let parts1 := Str.split (Str.remove_commas name1) in
  let parts2 := Str.split (Str.remove_commas name2) in
  if (2 <=? length parts1)%nat && (2 <=? length parts2)%nat then
    match parts1, parts2 with
    | last1 :: f1 :: _, last2 :: f2 :: _ =>
        if String.eqb (Str.lower last1) (Str.lower last2) then
          let first1 := Str.lower f1 in
          let first2 := Str.lower f2 in
          String.eqb first1 first2 || Str.startswith first1 first2
          || Str.startswith first2 first1
        else false
    | _, _ => false
    end
  else false.

(** The dictionary returned by [_find_student_in_aig]. *)
Record aig_status := AigStatus { status_math : bool; status_reading : bool }.

(** A Python truth test on an optional string. *)
Definition truthy (o : option string) : bool :=
  match o with
  | Some s => negb (Str.is_empty s)
  | None => false
  end.

(** [_find_student_in_aig]: the direct lookup, then the two index scans.  The
    scan of a set stops at the first match, so it is an existence test. *)
Definition _find_student_in_aig (student_name : string) (classroom_grade : option string)
    (p : processor) : aig_status * processor :=
  let normalized_name := _normalize_name student_name in
  match student_details p !! normalized_name with
  | Some student_info =>
      let p' :=
        match classroom_grade with
        | Some g =>
            if negb (Str.is_empty g) && negb (String.eqb (grade student_info) g)
            then emit DEBUG ("Grade mismatch for " +:+ normalized_name +:+ ": PDF grade "
                             +:+ grade student_info +:+ " vs classroom grade " +:+ g) p
            else p
        | None => p
        end in
      (AigStatus (math student_info) (reading student_info), p')
  | None =>
      let in_math := bool_decide (normalized_name ∈ aig_students_math p) in
      let in_reading := bool_decide (normalized_name ∈ aig_students_reading p) in
      let in_math :=
        if negb in_math
        then existsb (_names_match normalized_name) (elements (aig_students_math p))
        else in_math in
      let in_reading :=
        if negb in_reading
        then existsb (_names_match normalized_name) (elements (aig_students_reading p))
        else in_reading in
      (AigStatus in_math in_reading, p)
  end.

(** ** Classroom metadata: the grade pattern of [_extract_classroom_info] *)

(** The longest run of digits at the front, and what follows it. *)
Fixpoint span_digits (s : string) : string * string :=
  match s with
  | EmptyString => (EmptyString, EmptyString)
  | String c s' =>
      if Char.isdigit c
      then let '(d, r) := span_digits s' in (String c d, r)
      else (EmptyString, s)
  end.

Fixpoint drop_chars (n : nat) (s : string) : string :=
  match n, s with
  | O, _ => s
  | S n', String _ s' => drop_chars n' s'
  | S _, EmptyString => EmptyString
  end.

(** [\s*grade] at the front of [s]. *)
Definition blanks_then_grade (s : string) : bool :=
  Str.startswith (Str.lstrip s) "grade".

(** [(\d+)(?:st|nd|rd|th)?\s*grade] anchored at the front of [s]; the digits
    captured.  A shorter digit run, a dropped suffix or fewer blanks leave a
    character that the rest of the pattern rejects, so the greedy choice is
    the only one that can succeed. *)
Definition match_number_grade (s : string) : option string :=
  let '(d, r) := span_digits s in
  if Str.is_empty d then None
  else if (Str.startswith r "st" || Str.startswith r "nd"
           || Str.startswith r "rd" || Str.startswith r "th")
          && blanks_then_grade (drop_chars 2 r) then Some d
  else if blanks_then_grade r then Some d
  else None.

(** [grade\s*(\d+)] anchored at the front of [s]. *)
Definition match_grade_number (s : string) : option string :=
  if Str.startswith s "grade" then
    let '(d, _) := span_digits (Str.lstrip (drop_chars 5 s)) in
    if Str.is_empty d then None else Some d
  else None.

(** [re.search] of the two alternatives: the leftmost position where one of
    them matches, the first alternative tried first. *)
Fixpoint search_grade (s : string) : option string :=
  match match_number_grade s with
  | Some d => Some d
  | None =>
      match match_grade_number s with
      | Some d => Some d
      | None =>
          match s with
          | EmptyString => None
          | String _ s' => search_grade s'
          end
      end
  end.

(** The text of the non-missing cells of a row, in order. *)
Fixpoint present_texts (row : list cell) : list string :=
  match row with
  | [] => []
  | NaN :: rest => present_texts rest
  | Text s :: rest => s :: present_texts rest
  end.

(** [_extract_classroom_info(first_row, sheet_name)['grade']].  The track and
    the teacher are extracted by the source too and never read again. *)
Definition classroom_grade (first_row : list cell) : option string :=
  let first_row_text := Str.join " " (present_texts first_row) in
  search_grade (Str.lower first_row_text).

(** ** Calls that can raise *)

(** The outcome of a call: a value, or an exception with its message. *)
Inductive result (A : Type) : Type :=
  | Ok (a : A)
  | Raise (e : string).
Arguments Ok {A} a.
Arguments Raise {A} e.

(** A method of the processor: it may update the attributes and then either
    returns or raises.  The attributes keep what was done before a raise. *)
Definition M (A : Type) : Type := processor → result A * processor.

#[global] Instance M_ret : MRet M := λ A a p, (Ok a, p).

#[global] Instance M_bind : MBind M := λ A B f m p,
  match m p with
  | (Ok a, p') => f a p'
  | (Raise e, p') => (Raise e, p')
  end.

Definition raise {A : Type} (e : string) : M A := λ p, (Raise e, p).

Definition lift {A : Type} (r : result A) : M A := λ p, (r, p).

(** A statement that cannot raise. *)
Definition modify (f : processor → processor) : M unit := λ p, (Ok tt, f p).

Definition logger (l : level) (m : string) : M unit := modify (emit l m).

(** A sheet as [pd.read_excel(..., header=None)] returns it: the number of
    columns and the rows. *)
Record dataframe := DataFrame { columns : nat; data : list (list cell) }.

(** What the run reads from and writes to the outside: the text PyPDF2
    extracts from each page, [os.path.exists], the tables of a Word document
    (rows of cell texts), the tab colours openpyxl finds, the sheets pandas
    reads, and whether a file can be written. *)
Record environment := Environment {
  pdf_pages : string → result (list string);
  path_exists : string → bool;
  docx_tables : string → result (list (list (list string)));
  sheet_tab_colors : string → result (gmap string string);
  excel_sheets : string → result (list (string * result dataframe));
  save : string → option string
}.

(** [wb.save(path)] and the like. *)
Definition write_file (env : environment) (path : string) : M unit :=
  match save env path with
  | None => mret tt
  | Some e => raise e
  end.

(** ** Source extraction *)

(** [extract_aig_students_from_pdf] *)
Definition extract_aig_students_from_pdf (env : environment) : M unit := λ p,
  let p := emit INFO ("Processing PDF file: " +:+ pdf_file_path (cfg p)) p in
  match pdf_pages env (pdf_file_path (cfg p)) with
  | Ok pages => (Ok tt, _parse_aig_text p (String.concat "" pages))
  | Raise e => (Raise e, emit ERROR ("Error reading PDF file: " +:+ e) p)
  end.

Definition word_skip_message : string :=
  "No Word document provided or file not found, skipping Word processing".

(** [extract_aig_students_from_word] *)
Definition extract_aig_students_from_word (env : environment) : M unit := λ p,
  if negb (truthy (word_file_path (cfg p)))
     || negb (path_exists env (default "" (word_file_path (cfg p))))
  then (Ok tt, emit INFO word_skip_message p)
  else
    let path := default "" (word_file_path (cfg p)) in
    let p := emit INFO ("Processing Word document: " +:+ path) p in
    match docx_tables env path with
    | Ok tables => (Ok tt, process_word_tables p tables)
    | Raise e => (Ok tt, emit ERROR ("Error reading Word document: " +:+ e) p)
    end.

(** ** Classroom sheet reconciler: [update_excel_with_aig_data] *)

(** [row.iloc[j]] on a row of a frame with [width] columns. *)
Definition iloc (width : nat) (row : list cell) (j : nat) : result cell :=
  if (j <? width)%nat then Ok (nth j row NaN)
  else Raise "single positional indexer is out-of-bounds".

(** [str(c).strip() if pd.notna(c) else ""] *)
Definition cell_text (c : cell) : string :=
  match c with
  | NaN => ""
  | Text s => Str.strip s
  end.

Definition isna (c : cell) : bool :=
  match c with NaN => true | Text _ => false end.

(** The values of a row over the columns of its frame. *)
Definition row_values (width : nat) (row : list cell) : list cell :=
  map (λ j, nth j row NaN) (seq 0 width).

(** [df.iloc[2:, :2].dropna(how='all')]: the body rows, cut to the first two
    columns, without the rows that are missing in all of them. *)
Definition student_rows (df : dataframe) : list (list cell) :=
  List.filter (λ row, negb (forallb isna row))
              (map (row_values (Nat.min 2 (columns df))) (drop 2 (data df))).

(** The [if]/[elif] chain on the status: the label, the fill and the
    statistics with the matching counter incremented. *)
Definition classify (st : aig_status) (s : statistics)
    : string * option pattern_fill * statistics :=
  if status_math st && status_reading st then
    ("Both Math & Reading", Some colors_both,
     Statistics (total_students s) (aig_math_only s) (aig_reading_only s)
                (S (aig_both s)) (aig_none s) (td_only_students s))
  else if status_math st then
    ("Math Only", Some colors_math,
     Statistics (total_students s) (S (aig_math_only s)) (aig_reading_only s)
                (aig_both s) (aig_none s) (td_only_students s))
  else if status_reading st then
    ("Reading Only", Some colors_reading,
     Statistics (total_students s) (aig_math_only s) (S (aig_reading_only s))
                (aig_both s) (aig_none s) (td_only_students s))
  else
    ("None", None,
     Statistics (total_students s) (aig_math_only s) (aig_reading_only s)
                (aig_both s) (S (aig_none s)) (td_only_students s)).

(** [self.stats['total_students'] += 1] *)
Definition count_student (p : processor) : processor :=
  let s := stats p in
  with_stats (Statistics (S (total_students s)) (aig_math_only s) (aig_reading_only s)
                         (aig_both s) (aig_none s) (td_only_students s)) p.

Definition ws_append (row : list value) (w : worksheet) : worksheet :=
  Worksheet (ws_title w) (tabColor w) (appended w ++ [row]) (fills w).

(** The loop [for col_idx in range(1, 6): ws.cell(row=r, column=col_idx).fill = color],
    when there is a colour. *)
Definition ws_fill (r : nat) (color : option pattern_fill) (w : worksheet) : worksheet :=
  match color with
  | Some c => Worksheet (ws_title w) (tabColor w) (appended w) (fills w ++ [(r, c)])
  | None => w
  end.

(** The two worksheets of the sheet being written and [aig_row_idx]. *)
Record sheet_state := SheetState {
  ws : worksheet;
  ws_aig_only : worksheet;
  aig_row_idx : nat
}.

(** The test that lets a body row through. *)
Definition is_student_row (lastname firstname : string) : bool :=
  negb (Str.is_empty lastname) && negb (Str.is_empty firstname)
  && negb (in_list (Str.upper lastname) ["LASTNAME"; "LAST"]).

(** [self.students_in_excel.add(n)] *)
Definition add_in_excel (n : string) (p : processor) : processor :=
  with_seen ({[ n ]} ∪ students_in_excel p) (students_in_sources p) p.

(** The call of [_find_student_in_aig] as a statement of the loop. *)
Definition find_status (full_name : string) (classroom_grade : option string)
    : M aig_status := λ p,
  let '(r, p') := _find_student_in_aig full_name classroom_grade p in (Ok r, p').

(** The status chain applied to [self.stats]. *)
Definition classify_and_count (st : aig_status) : M (string * option pattern_fill) := λ p,
  let '(t, c, s) := classify st (stats p) in (Ok (t, c), with_stats s p).

(** One iteration of the loop over [student_data.iterrows()], [idx] being the
    number [enumerate] gives the row. *)
Definition reconcile_row (width : nat) (classroom_grade : option string) (idx : nat)
    (row : list cell) (st : sheet_state) : M sheet_state :=
  c0 ← lift (iloc width row 0);
  let lastname := cell_text c0 in
  c1 ← lift (iloc width row 1);
  let firstname := cell_text c1 in
  if is_student_row lastname firstname then
    modify count_student;;
    let full_name := lastname +:+ ", " +:+ firstname in
    modify (add_in_excel (_normalize_name full_name));;
    aig_status ← find_status full_name classroom_grade;
    '(status_text, color) ← classify_and_count aig_status;
    let row_data := [VStr lastname; VStr firstname; VBool (status_math aig_status);
                     VBool (status_reading aig_status); VStr status_text] in
    let ws1 := ws_fill idx color (ws_append row_data (ws st)) in
    if status_math aig_status || status_reading aig_status then
      mret (SheetState ws1
                       (ws_fill (aig_row_idx st) color (ws_append row_data (ws_aig_only st)))
                       (S (aig_row_idx st)))
    else mret (SheetState ws1 (ws_aig_only st) (aig_row_idx st))
  else mret st.

Fixpoint reconcile_rows (width : nat) (classroom_grade : option string) (idx : nat)
    (rows : list (list cell)) (st : sheet_state) : M sheet_state :=
  match rows with
  | [] => mret st
  | row :: rest =>
      st' ← reconcile_row width classroom_grade idx row st;
      reconcile_rows width classroom_grade (S idx) rest st'
  end.

(** The two output workbooks, as the lists of their sheets. *)
Record workbooks := Workbooks { wb : list worksheet; wb_aig_only : list worksheet }.

(** One iteration of the loop over [excel_file.sheet_names]. *)
Definition reconcile_sheet (original_sheet_colors : gmap string string)
    (out : workbooks) (sheet : string * result dataframe) : M workbooks :=
  let '(sheet_name, read) := sheet in
  df ← lift read;
  if (length (data df) <? 3)%nat then mret out
  else
    let first_row := row_values (columns df) (nth 0 (data df) []) in
    let grade := classroom_grade first_row in
    let color := original_sheet_colors !! sheet_name in
    let metadata_row := map VCell first_row in
    let header_row := map VStr ["LASTNAME"; "FIRSTNAME"; "AIG Math"; "AIG Reading";
                                "AIG Status"] in
    let fresh := Worksheet sheet_name color [metadata_row; header_row] [] in
    st ← reconcile_rows (Nat.min 2 (columns df)) grade 3 (student_rows df)
                        (SheetState fresh fresh 3);
    mret (Workbooks (wb out ++ [ws st]) (wb_aig_only out ++ [ws_aig_only st])).

Fixpoint reconcile_sheets (original_sheet_colors : gmap string string)
    (sheets : list (string * result dataframe)) (out : workbooks) : M workbooks :=
  match sheets with
  | [] => mret out
  | sheet :: rest =>
      out' ← reconcile_sheet original_sheet_colors out sheet;
      reconcile_sheets original_sheet_colors rest out'
  end.

(** Reading an attribute of the processor. *)
Definition attribute {A : Type} (f : processor → A) : M A := λ p, (Ok (f p), p).

(** The first [try] block: the tab colours of the original workbook, or none
    of them and a warning when it cannot be loaded. *)
Definition load_sheet_colors (env : environment) : M (gmap string string) := λ p,
  match sheet_tab_colors env (excel_file_path (cfg p)) with
  | Ok colors => (Ok colors, p)
  | Raise e =>
      (Ok ∅, emit WARNING ("Could not load original workbook for color preservation: "
                           +:+ e) p)
  end.

(** [pd.ExcelFile(self.excel_file_path)] and the sheets read from it. *)
Definition read_sheets (env : environment) : M (list (string * result dataframe)) := λ p,
  (excel_sheets env (excel_file_path (cfg p)), p).

(** [update_excel_with_aig_data].  The column widths set at the end of each
    sheet are presentation only and are left out. *)
Definition update_excel_with_aig_data (env : environment) : M unit :=
  logger INFO "Updating Excel file with AIG data...";;
  original_sheet_colors ← load_sheet_colors env;
  sheets ← read_sheets env;
  out ← reconcile_sheets original_sheet_colors sheets (Workbooks [] []);
  path ← attribute (λ p, output_file (cfg p));
  path_aig ← attribute (λ p, aig_only_file (cfg p));
  write_file env path;;
  modify (with_saved path (wb out));;
  write_file env path_aig;;
  modify (with_saved path_aig (wb_aig_only out));;
  logger INFO ("Updated Excel file saved: " +:+ path);;
  logger INFO ("AIG-only Excel file saved: " +:+ path_aig).


(** ** Reports *)

(** The status chain of [generate_missing_students_report]. *)
Definition missing_status (info : student_info) : string * option pattern_fill :=
  if math info && reading info then ("Both Math & Reading", Some colors_both)
  else if math info then ("Math Only", Some colors_math)
  else if reading info then ("Reading Only", Some colors_reading)
  else ("None", None).

(** The loop over [sorted(missing_students)]: a row for every name that has a
    record, filled over columns A to G at [ws_missing.max_row]. *)
Fixpoint missing_rows (details : gmap string student_info) (names : list string)
    (w : worksheet) : worksheet :=
  match names with
  | [] => w
  | student_name :: rest =>
      match details !! student_name with
      | Some info =>
          let source := if String.eqb (student_id info) "N/A" then "Word Document" else "PDF" in
          let '(aig_status, color) := missing_status info in
          let row_data := [VStr student_name; VStr source; VStr (student_id info);
                           VStr (grade info); VBool (math info); VBool (reading info);
                           VStr aig_status] in
          let w1 := ws_append row_data w in
          missing_rows details rest (ws_fill (length (appended w1)) color w1)
      | None => missing_rows details rest w
      end
  end.

(** The order of Python on strings: by code point, then by length. *)
Definition str_le (a b : string) : Prop := String.leb a b = true.

#[global] Instance str_le_dec (a b : string) : Decision (str_le a b) :=
  bool_eq_dec (String.leb a b) true.

(** [sorted(names)] *)
Definition sorted (names : list string) : list string := merge_sort str_le names.

(** [generate_missing_students_report] *)
Definition generate_missing_students_report (env : environment) : M unit :=
  logger INFO "Generating missing students report...";;
  missing_students ← attribute (λ p, students_in_sources p ∖ students_in_excel p);
  if decide (missing_students = ∅) then
    logger INFO "All students from source documents were found in Excel spreadsheet"
  else
    let headers := map VStr ["Student Name"; "Source"; "Student ID"; "Grade"; "AIG Math";
                             "AIG Reading"; "AIG Status"] in
    ws_missing ← attribute (λ p,
      missing_rows (student_details p) (sorted (elements missing_students))
                   (Worksheet "Students Not In Excel" None [headers] []));
    path ← attribute (λ p, missing_students_file (cfg p));
    write_file env path;;
    modify (with_saved path [ws_missing]);;
    logger INFO ("Missing students report saved: " +:+ path);;
    logger INFO ("Found " +:+ Str.of_nat (size missing_students)
                 +:+ " students in source documents that are not in Excel").

(** [print_statistics] with [save_statistics_to_markdown]: the figures go to
    the standard output and to the markdown file; of the two only the attempt
    to write the file and its log line are kept here. *)
Definition print_statistics (env : environment) : M unit := λ p,
  let markdown_file := path_join (output_dir (cfg p)) "aig_statistics_report.md" in
  match save env markdown_file with
  | None => (Ok tt, emit INFO ("Statistics saved to markdown file: " +:+ markdown_file) p)
  | Some e => (Ok tt, emit ERROR ("Error saving markdown file: " +:+ e) p)
  end.

(** ** The entry point *)

(** Steps 1 and 2 of [process]: the two sources and the counts logged after
    each. *)
Definition process_sources (env : environment) : M unit :=
  extract_aig_students_from_pdf env;;
  n ← attribute (λ p, size (aig_students_math p));
  logger INFO ("Found " +:+ Str.of_nat n +:+ " AIG Math students");;
  n ← attribute (λ p, size (aig_students_reading p));
  logger INFO ("Found " +:+ Str.of_nat n +:+ " AIG Reading students");;
  extract_aig_students_from_word env;;
  n ← attribute (λ p, size (aig_students_math p));
  logger INFO ("Total " +:+ Str.of_nat n +:+ " AIG Math students after Word processing");;
  n ← attribute (λ p, size (aig_students_reading p));
  logger INFO ("Total " +:+ Str.of_nat n +:+ " AIG Reading students after Word processing").

(** Steps 3 to 5 of [process] and its closing log lines. *)
Definition process_outputs (env : environment) : M unit :=
  update_excel_with_aig_data env;;
  generate_missing_students_report env;;
  print_statistics env;;
  logger INFO "Processing completed successfully!";;
  path ← attribute (λ p, output_file (cfg p));
  logger INFO ("Updated Excel file: " +:+ path).

(** The body of the [try] block of [process]. *)
Definition process_steps (env : environment) : M unit :=
  process_sources env;;
  process_outputs env.

(** [process] *)
Definition process (env : environment) : M unit := λ p,
  match process_steps env (emit INFO "Starting AIG Class List Processing..." p) with
  | (Ok tt, p') => (Ok tt, p')
  | (Raise e, p') => (Raise e, emit ERROR ("Error during processing: " +:+ e) p')
  end.

(** ** Notions used to state the properties *)

(** The tokens [_names_match] compares: commas removed, then split on blanks. *)
Definition name_tokens (n : string) : list string := Str.split (Str.remove_commas n).


(** [a] is a prefix of [b]. *)
Definition is_prefix (a b : string) : Prop := ∃ r, b = a +:+ r.



(** The index and the records agree: a name is in the set of a subject exactly
    when its record has the flag of that subject. *)
Definition index_consistent (p : processor) : Prop :=
  ∀ n,
    (n ∈ aig_students_math p ↔
       ∃ info, student_details p !! n = Some info ∧ math info = true)
    ∧ (n ∈ aig_students_reading p ↔
       ∃ info, student_details p !! n = Some info ∧ reading info = true).

(** The five counters of the statistics. *)
Definition counters (s : statistics) : nat * nat * nat * nat * nat :=
  (total_students s, aig_both s, aig_math_only s, aig_reading_only s, aig_none s).

(** The students counted are the sum of the four status counters. *)
Definition balanced (s : statistics) : Prop :=
  total_students s = aig_both s + aig_math_only s + aig_reading_only s + aig_none s.



(** A line feed, between two lines of PDF text. *)
Definition LF : string := String "010"%char EmptyString.

(** A processor configuration for the worked scenarios. *)
Definition example_config : config :=
  Config "roster.pdf" "class_lists.xlsx" None "output".

(** *** Reasoning about methods *)

(** A triple for a method: from a state satisfying [Q], a return leaves a
    value and a state satisfying [R], a raise leaves a state satisfying [E]. *)
Definition hoare {A : Type} (Q : processor → Prop) (m : M A)
    (R : A → processor → Prop) (E : processor → Prop) : Prop :=
  ∀ p, Q p →
    match m p with
    | (Ok a, p') => R a p'
    | (Raise _, p') => E p'
    end.

(** [I] is kept by the method, whether it returns or raises. *)
Definition keeps {A : Type} (I : processor → Prop) (m : M A) : Prop :=
  hoare I m (λ _, I) I.

(** The statistics of the processor are balanced. *)
Definition counters_balanced (p : processor) : Prop := balanced (stats p).

(** A property of the processor that logging and saving a workbook keep. *)
Definition stable (I : processor → Prop) : Prop :=
  (∀ l m p, I p → I (emit l m p))
  ∧ (∀ path w p, I p → I (with_saved path w p)).





(** A classroom sheet for the worked scenarios: grade 3, one student. *)
Definition example_classroom : dataframe :=
  DataFrame 2 [[Text "Heinze 3rd Grade T1"];
               [Text "LASTNAME"; Text "FIRSTNAME"];
               [Text "Smith"; Text "John"]].



Definition example_environment : environment :=
  {| pdf_pages := λ _, Ok ["Smith, John 123456789 3 AIG TD"];
     path_exists := λ path, negb (String.eqb path "td_students.docx");
     docx_tables := λ _, Raise "Package not found";
     sheet_tab_colors := λ _, Ok ∅;
     excel_sheets := λ _, Ok [("Room 1", Ok example_classroom)];
     save := λ _, None |}.





(** *** Further notions *)

(** A token: at least one character, none of them blank. *)
Fixpoint no_blank (s : string) : bool :=
  match s with
  | EmptyString => true
  | String c s' => negb (Char.isspace c) && no_blank s'
  end.

Definition is_token (s : string) : bool := negb (Str.is_empty s) && no_blank s.

(** A change applied to every character. *)
Fixpoint map_chars (f : ascii → ascii) (s : string) : string :=
  match s with
  | EmptyString => EmptyString
  | String c s' => String (f c) (map_chars f s')
  end.

(** The test of the PDF parser for a student id. *)
Definition is_student_id (part : string) : bool :=
  Str.isdigit part && (8 <=? String.length part)%nat.

(** The status flag of the PDF parser and of the Word parser. *)
Definition pdf_flag (status : string) : bool :=
  in_list (Str.upper status) ["TD"; "AG"; "IG"; "AIG"].

Definition word_flag (status : string) : bool :=
  in_list (Str.upper status) ["TD"; "AIG"].

(** The TD-only test of the PDF parser and of the Word parser. *)
Definition pdf_td_only (reading_status math_status : string) : bool :=
  (String.eqb (Str.upper reading_status) "TD" || String.eqb (Str.upper math_status) "TD")
  && negb (in_list (Str.upper reading_status) ["AG"; "IG"; "AIG"]
           || in_list (Str.upper math_status) ["AG"; "IG"; "AIG"]).

Definition word_td_only (reading_text math_text : string) : bool :=
  (String.eqb (Str.upper reading_text) "TD" || String.eqb (Str.upper math_text) "TD")
  && negb (String.eqb (Str.upper reading_text) "AIG")
  && negb (String.eqb (Str.upper math_text) "AIG").

(** The state in which the PDF parser leaves a line it accepts, given the
    normalised name and the four fields of the line. *)
Definition pdf_store (p : processor) (n sid g reading_status math_status : string)
    : processor :=
  let r := pdf_flag reading_status in
  let m := pdf_flag math_status in
  let p1 := if pdf_td_only reading_status math_status then add_td_only n p else p in
  let p2 := add_to_index n m r p1 in
  let p3 := with_details (<[n := StudentInfo n sid g r m]> (student_details p2)) p2 in
  emit DEBUG ("Added student: " +:+ n +:+ ", Grade: " +:+ g
              +:+ ", Math: " +:+ Str.of_bool m +:+ ", Reading: " +:+ Str.of_bool r)
       (add_source n p3).

(** The record the Word parser stores for a name: the old one with the flags
    of the row or-ed in, or a new one without id and grade. *)
Definition word_record (old : option student_info) (n : string) (r m : bool)
    : student_info :=
  match old with
  | Some old => StudentInfo (name old) (student_id old) (grade old)
                            (reading old || r) (math old || m)
  | None => StudentInfo n "N/A" "N/A" r m
  end.

(** The state in which the Word parser leaves a row it accepts. *)
Definition word_store (p : processor) (n reading_text math_text : string) : processor :=
  let r := word_flag reading_text in
  let m := word_flag math_text in
  let p1 := if word_td_only reading_text math_text then add_td_only n p else p in
  let p2 := with_details (<[n := word_record (student_details p1 !! n) n r m]>
                            (student_details p1)) p1 in
  emit DEBUG ("Added from Word: " +:+ n
              +:+ ", Math: " +:+ Str.of_bool m +:+ ", Reading: " +:+ Str.of_bool r)
       (add_source n (add_to_index n m r p2)).

(** What both parsers do when they store a record under [n]: the record
    [info] is put in the map, the name is added to the names seen, to the
    sets the flags [m] and [r] select and, when [td] holds, to the TD-only
    set; the names of the spreadsheet are left alone. *)
Definition stored (p p' : processor) (n : string) (info : student_info)
    (r m td : bool) : Prop :=
  student_details p' = <[n := info]> (student_details p)
  ∧ students_in_sources p' = {[ n ]} ∪ students_in_sources p
  ∧ aig_students_math p'
    = (if m then {[ n ]} ∪ aig_students_math p else aig_students_math p)
  ∧ aig_students_reading p'
    = (if r then {[ n ]} ∪ aig_students_reading p else aig_students_reading p)
  ∧ td_only_students (stats p')
    = (if td then {[ n ]} ∪ td_only_students (stats p) else td_only_students (stats p))
  ∧ students_in_excel p' = students_in_excel p.



(** [p'] has everything the sources of [p] had: every record, with its id and
    grade, every name of the index, of the TD-only set and of the names seen. *)
Definition sources_grow (p p' : processor) : Prop :=
  (∀ n info, student_details p !! n = Some info →
     ∃ info', student_details p' !! n = Some info')
  ∧ aig_students_math p ⊆ aig_students_math p'
  ∧ aig_students_reading p ⊆ aig_students_reading p'
  ∧ students_in_sources p ⊆ students_in_sources p'
  ∧ td_only_students (stats p) ⊆ td_only_students (stats p').

(** [new] keeps what [old] had: the name, the id, the grade and every flag
    that was set. *)
Definition record_kept (old new : student_info) : Prop :=
  name new = name old ∧ student_id new = student_id old ∧ grade new = grade old
  ∧ (reading old = true → reading new = true)
  ∧ (math old = true → math new = true).

(** The tokens of a roster line: the tokens of the last name, the last of
    them holding the comma, the tokens of the first name, the id, the grade,
    the two statuses and whatever follows them. *)
Definition roster_tokens (last_name : list string) (comma_token : string)
    (first_name : list string) (sid g reading_status math_status : string)
    (extra : list string) : list string :=
  (last_name ++ comma_token :: first_name
   ++ sid :: g :: reading_status :: math_status :: extra)%list.

(** The tokens of the name in a roster line. *)
Definition roster_name (last_name : list string) (comma_token : string)
    (first_name : list string) : list string :=
  (last_name ++ comma_token :: first_name)%list.

(** The sources of [p'] are those of [p]: the configuration, the records, the
    index, the names seen in a source and the TD-only set. *)
Definition same_sources (p p' : processor) : Prop :=
  cfg p' = cfg p
  ∧ student_details p' = student_details p
  ∧ aig_students_math p' = aig_students_math p
  ∧ aig_students_reading p' = aig_students_reading p
  ∧ students_in_sources p' = students_in_sources p
  ∧ td_only_students (stats p') = td_only_students (stats p).


(** The log of [p'] is the log of [p] with records added at the end. *)
Definition log_extends (p p' : processor) : Prop :=
  ∃ l, log p' = (log p ++ l)%list.

(** The last record of a log. *)
Definition last_record (p : processor) : option log_record := last (log p).

(** The first and the last line a successful run logs. *)
Definition start_record : log_record :=
  LogRecord INFO "Starting AIG Class List Processing...".

Definition done_record (c : config) : log_record :=
  LogRecord INFO ("Updated Excel file: " +:+ output_file c).

(** The line [process] logs before it re-raises. *)
Definition failed_record (e : string) : log_record :=
  LogRecord ERROR ("Error during processing: " +:+ e).

(** A run whose PDF file cannot be opened. *)
Definition example_no_pdf_environment : environment :=
  {| pdf_pages := λ _, Raise "No such file or directory";
     path_exists := path_exists example_environment;
     docx_tables := docx_tables example_environment;
     sheet_tab_colors := sheet_tab_colors example_environment;
     excel_sheets := excel_sheets example_environment;
     save := save example_environment |}.

(** *** Notions for the output sheets *)

(** A student as the reconciler writes it: last name, first name, status. *)
Definition student : Type := string * string * aig_status.

(** The label and the fill of a status, as the status chain gives them. *)
Definition status_text (st : aig_status) : string :=
  (classify st (Statistics 0 0 0 0 0 ∅)).1.1.


(** [row_data] of the row loop. *)
Definition row_data (s : student) : list value :=
  [VStr s.1.1; VStr s.1.2; VBool (status_math s.2); VBool (status_reading s.2);
   VStr (status_text s.2)].







(** Two states that differ in their log only. *)
Definition same_but_log (p q : processor) : Prop :=
  cfg q = cfg p
  ∧ aig_students_math q = aig_students_math p
  ∧ aig_students_reading q = aig_students_reading p
  ∧ students_in_excel q = students_in_excel p
  ∧ students_in_sources q = students_in_sources p
  ∧ stats q = stats p
  ∧ student_details q = student_details p
  ∧ saved q = saved p.


(** A sheet with one column only. *)
Definition example_narrow_sheet : dataframe :=
  DataFrame 1 [[Text "Room 7 2nd Grade"]; [Text "NAME"]; [Text "Smith John"]].

(** The first cell of a row, as text. *)
Definition first_cell (row : list value) : string :=
  match row with
  | VStr s :: _ => s
  | _ => ""
  end.

(** The row of the missing students report for a record. *)
Definition missing_row (student_name : string) (info : student_info) : list value :=
  [VStr student_name;
   VStr (if String.eqb (student_id info) "N/A" then "Word Document" else "PDF");
   VStr (student_id info); VStr (grade info); VBool (math info); VBool (reading info);
   VStr (missing_status info).1].

(** The names missing from the spreadsheet, in the order of the report. *)
Definition missing_names (p : processor) : list string :=
  sorted (elements (students_in_sources p ∖ students_in_excel p)).

(** The rows and the fills the loop of the report leaves, the next row of the
    sheet being row [row]. *)
Fixpoint report_rows (details : gmap string student_info) (names : list string)
    : list (list value) :=
  match names with
  | [] => []
  | student_name :: rest =>
      match details !! student_name with
      | Some info => missing_row student_name info :: report_rows details rest
      | None => report_rows details rest
      end
  end.

Fixpoint report_fills (details : gmap string student_info) (names : list string)
    (row : nat) : list (nat * pattern_fill) :=
  match names with
  | [] => []
  | student_name :: rest =>
      match details !! student_name with
      | Some info =>
          match (missing_status info).2 with
          | Some color => (row, color) :: report_fills details rest (S row)
          | None => report_fills details rest (S row)
          end
      | None => report_fills details rest row
      end
  end.

(** A run state for the worked scenarios: two students read from the PDF,
    none of them seen in the spreadsheet. *)
Definition example_two_students : processor :=
  parse_aig_line
    (parse_aig_line (new_processor example_config) "Smith, John 123456789 3 AIG -")
    "Doe, Jane 987654321 4 - -".

(** *** Notions for the grade pattern *)

(** Blanks only. *)
Fixpoint all_blank (s : string) : bool :=
  match s with
  | EmptyString => true
  | String c s' => Char.isspace c && all_blank s'
  end.

(** No digit. *)
Fixpoint no_digit (s : string) : bool :=
  match s with
  | EmptyString => true
  | String c s' => negb (Char.isdigit c) && no_digit s'
  end.

(** The next character exists and is a digit. *)
Definition starts_digit (s : string) : bool :=
  match s with EmptyString => false | String c _ => Char.isdigit c end.

(** *** The command line entry point *)






(** *** The helper that builds a name from a row *)

(** [str(c).strip() if pd.notna(c) else None] *)
Definition cell_name (c : cell) : option string :=
  match c with
  | NaN => None
  | Text s => Some (Str.strip s)
  end.

(** [_construct_full_name_from_excel] on a row of a frame read without a
    header row, as the reconciler reads every sheet: the labels of such a row
    are its positions, so the lookups under the labels LASTNAME and FIRSTNAME
    find nothing and the access by position decides.  The argument [columns]
    is not used by the source. *)
Definition _construct_full_name_from_excel (row : list cell) : option string :=
  let lastname := if (1 <=? length row)%nat then cell_name (nth 0 row NaN) else None in
  let firstname := if (2 <=? length row)%nat then cell_name (nth 1 row NaN) else None in
  match lastname, firstname with
  | Some lastname, Some firstname =>
      if negb (Str.is_empty lastname) && negb (Str.is_empty firstname)
         && negb (in_list (Str.upper lastname) ["LASTNAME"; "LAST"])
         && negb (in_list (Str.upper firstname) ["FIRSTNAME"; "FIRST"])
      then Some (lastname +:+ ", " +:+ firstname)
      else None
  | _, _ => None
  end.

(** *** The output directory of a batch run *)

(** The character [c] occurs in [s]. *)
Fixpoint has_char (c : ascii) (s : string) : bool :=
  match s with
  | EmptyString => false
  | String d s' => Char.eqb d c || has_char c s'
  end.

(** [os.path.basename(p)] on POSIX paths: what follows the last slash. *)
Fixpoint basename (p : string) : string :=
  match p with
  | EmptyString => EmptyString
  | String c p' =>
      if has_char "/" p' then basename p'
      else if Char.eqb c "/" then p'
      else p
  end.

(** The part of [s] before its last dot, when it has a dot. *)
Fixpoint before_last_dot (s : string) : option string :=
  match s with
  | EmptyString => None
  | String c s' =>
      match before_last_dot s' with
      | Some r => Some (String c r)
      | None => if Char.eqb c "." then Some EmptyString else None
      end
  end.

Fixpoint all_dots (s : string) : bool :=
  match s with
  | EmptyString => true
  | String c s' => Char.eqb c "." && all_dots s'
  end.

(** [os.path.splitext(b)[0]] for a name [b] without slash: the name without
    the part that starts at its last dot, unless only dots come before that
    dot. *)
Definition splitext_root (b : string) : string :=
  match before_last_dot b with
  | Some r => if all_dots r then b else r
  | None => b
  end.

(** [s.replace(" ", "_")] *)
Definition replace_spaces (s : string) : string :=
  map_chars (λ c, if Char.eqb c " " then "_"%char else c) s.

(** [output_dir] of one combination of [batch_process]. *)
Definition batch_output_dir (pdf_file excel_file : string) : string :=
  let pdf_name := splitext_root (basename pdf_file) in
  let excel_name := splitext_root (basename excel_file) in
  replace_spaces ("output/batch_" +:+ pdf_name +:+ "_" +:+ excel_name).

(** A file name without slash and dot that is not empty. *)
Definition plain_name (s : string) : bool :=
  negb (Str.is_empty s) && negb (has_char "/" s) && negb (has_char "." s).

(** The file of a directory with a name and an extension. *)
Definition file_in (dir name ext : string) : string :=
  dir +:+ "/" +:+ name +:+ "." +:+ ext.

(** * Properties *)

(** ** Characters and case *)

Section CharFacts.

#[local] Ltac by_cases c :=
  destruct c as [[] [] [] [] [] [] [] []]; vm_compute; try reflexivity; try discriminate.













End CharFacts.

(** ** Normalised names *)

Section Normalisation.

Lemma starts_blank_lstrip s : Str.starts_blank (Str.lstrip s) = false.
Proof.
  induction s as [|c s IH]; [reflexivity|].
  simpl. destruct (Char.isspace c) eqn:E; [exact IH|]. simpl. exact E.
Qed.

Lemma starts_blank_rstrip s :
  Str.starts_blank s = false → Str.starts_blank (Str.rstrip s) = false.
Proof.
  destruct s as [|c s]; [reflexivity|]. simpl. intros H. rewrite H. simpl. exact H.
Qed.

Lemma ends_blank_rstrip s : Str.ends_blank (Str.rstrip s) = false.
Proof.
  induction s as [|c s IH]; [reflexivity|]. simpl.
  destruct (Char.isspace c) eqn:Ec, (Str.is_empty (Str.rstrip s)) eqn:Er;
    simpl; rewrite ?Er, ?Ec; auto.
Qed.

Lemma starts_collapse s :
  Str.starts_blank (Str.collapse_ws s) = Str.starts_blank s
  ∧ Str.starts_token (Str.collapse_ws s) = Str.starts_token s.
Proof.
  induction s as [|c s [IHb IHt]]; [split; reflexivity|]. simpl.
  destruct (Char.isspace c) eqn:Ec.
  - destruct (Str.starts_blank s) eqn:Eb.
    + rewrite IHb, IHt. split; [reflexivity|].
      destruct s as [|d s]; [discriminate|]. simpl in *. rewrite Eb. reflexivity.
    + split; reflexivity.
  - simpl. rewrite Ec. split; reflexivity.
Qed.

Lemma tidy_collapse s : Str.ends_blank s = false → Str.tidy (Str.collapse_ws s) = true.
Proof.
  induction s as [|c s IH]; [reflexivity|]. simpl. intros He.
  assert (Hs : Str.ends_blank s = false).
  { destruct s as [|d s]; [reflexivity|]. exact He. }
  destruct (Char.isspace c) eqn:Ec.
  - destruct (Str.starts_blank s) eqn:Eb; [apply IH, Hs|].
    simpl. rewrite (proj2 (starts_collapse s)), (IH Hs).
    destruct s as [|d s]; [simpl in He; congruence|].
    simpl in *. rewrite Eb. reflexivity.
  - simpl. rewrite Ec. apply IH, Hs.
Qed.




Lemma rstrip_tidy s : Str.tidy s = true → Str.rstrip s = s.
Proof.
  induction s as [|c s IH]; [reflexivity|]. simpl. intros H.
  apply andb_true_iff in H as [Hc Hs]. rewrite (IH Hs).
  destruct (Char.isspace c) eqn:Ec; [|reflexivity].
  apply andb_true_iff in Hc as [_ Ht].
  destruct s as [|d s]; [discriminate|]. reflexivity.
Qed.

Lemma strip_tidy s : Str.tidy s = true → Str.starts_blank s = false → Str.strip s = s.
Proof.
  intros Ht Hb. unfold Str.strip.
  assert (Hl : Str.lstrip s = s).
  { destruct s as [|c s]; [reflexivity|]. simpl in *. rewrite Hb. reflexivity. }
  rewrite Hl. apply rstrip_tidy, Ht.
Qed.




End Normalisation.

(** ** The two record parsers and the index *)

Section Sources.

Lemma foldl_invariant {A : Type} (P : processor → Prop) (f : processor → A → processor) :
  (∀ p x, P p → P (f p x)) → ∀ l p, P p → P (foldl f p l).
Proof.
  intros Hf l. induction l as [|x l IH]; intros p Hp; [exact Hp|].
  simpl. apply IH, Hf, Hp.
Qed.


(** What a Word row does: nothing, or the record of its name is created or
    has the flags of the row or-ed into it, and the name is added to the sets
    the flags of the row select. *)
Lemma process_word_row_effect p cells :
  (student_details (process_word_row p cells) = student_details p
   ∧ aig_students_math (process_word_row p cells) = aig_students_math p
   ∧ aig_students_reading (process_word_row p cells) = aig_students_reading p)
  ∨ ∃ n r m,
      student_details (process_word_row p cells)
        = <[n := match student_details p !! n with
                 | Some old => StudentInfo (name old) (student_id old) (grade old)
                                           (reading old || r) (math old || m)
                 | None => StudentInfo n "N/A" "N/A" r m
                 end]> (student_details p)
      ∧ aig_students_math (process_word_row p cells)
        = (if m then {[ n ]} ∪ aig_students_math p else aig_students_math p)
      ∧ aig_students_reading (process_word_row p cells)
        = (if r then {[ n ]} ∪ aig_students_reading p else aig_students_reading p).
Proof.
  unfold process_word_row.
  destruct cells as [|c0 [|c1 [|c2 rest]]]; try by left.
  destruct (negb _); [|by left].
  right. eexists _, _, _.
  match goal with
  | |- context [if ?b then add_td_only _ _ else _] => destruct b
  end; cbn [student_details aig_students_math aig_students_reading emit add_source
            with_seen add_to_index with_index with_details add_td_only with_stats];
    (split; [|split; reflexivity]);
    match goal with
    | |- context [student_details p !! ?n] => destruct (student_details p !! n)
    end; reflexivity.
Qed.






(** The Word parser merges by logical or: a record that exists keeps every
    flag it had, whatever the row says, and no other name is touched. *)
Lemma word_row_or_merge p cells n old :
  student_details p !! n = Some old →
  ∃ new, student_details (process_word_row p cells) !! n = Some new
         ∧ (reading old = true → reading new = true)
         ∧ (math old = true → math new = true).
Proof.
  intros Hold.
  destruct (process_word_row_effect p cells)
    as [(Hd & _) | (n' & r & m & Hd & _)]; rewrite Hd.
  - exists old. auto.
  - destruct (decide (n' = n)) as [->|Hne].
    + rewrite lookup_insert_eq, Hold. eexists. split; [reflexivity|].
      simpl. split; intros ->; reflexivity.
    + rewrite lookup_insert_ne by exact Hne. exists old. auto.
Qed.

(** The Word parser keeps the index and the records in agreement. *)
Lemma word_row_index_consistent p cells :
  index_consistent p → index_consistent (process_word_row p cells).
Proof.
  intros H.
  destruct (process_word_row_effect p cells)
    as [(Hd & Hm & Hr) | (n & r & m & Hd & Hm & Hr)].
  - intros n. rewrite Hd, Hm, Hr. apply H.
  - intros n'. rewrite Hd, Hm, Hr. destruct (H n') as [H1 H2].
    destruct (decide (n = n')) as [->|Hne].
    + rewrite lookup_insert_eq.
      destruct (student_details p !! n') as [old|] eqn:E.
      * split; (split; [intros Hin; eexists; split; [reflexivity|]; simpl
                       | intros (info & [= <-] & Hf); simpl in Hf]).
        -- destruct m; [apply orb_true_r|]. apply H1 in Hin as (i & [= <-] & Hi).
           rewrite Hi. reflexivity.
        -- destruct m; [clear; set_solver|]. rewrite orb_false_r in Hf. apply H1. eauto.
        -- destruct r; [apply orb_true_r|]. apply H2 in Hin as (i & [= <-] & Hi).
           rewrite Hi. reflexivity.
        -- destruct r; [clear; set_solver|]. rewrite orb_false_r in Hf. apply H2. eauto.
      * split; (split; [intros Hin; eexists; split; [reflexivity|]; simpl
                       | intros (info & [= <-] & Hf); simpl in Hf]).
        -- destruct m; [reflexivity|]. apply H1 in Hin as (i & Hi & _). discriminate.
        -- subst m. clear. set_solver.
        -- destruct r; [reflexivity|]. apply H2 in Hin as (i & Hi & _). discriminate.
        -- subst r. clear. set_solver.
    + rewrite lookup_insert_ne by exact Hne. split.
      * rewrite <- H1. destruct m; [|reflexivity].
        rewrite elem_of_union, elem_of_singleton.
        split; [intros [?|?]; congruence || assumption | auto].
      * rewrite <- H2. destruct r; [|reflexivity].
        rewrite elem_of_union, elem_of_singleton.
        split; [intros [?|?]; congruence || assumption | auto].
Qed.

End Sources.

(** Membership in a set that evaluates. *)
Ltac by_evaluation :=
  match goal with
  | |- ?x ∈ ?s => apply (proj1 (bool_decide_eq_true (x ∈ s))); vm_compute; reflexivity
  | |- ?x ∉ ?s => apply (proj1 (bool_decide_eq_false (x ∈ s))); vm_compute; reflexivity
  end.

(** ** Merging records of one name *)

Section Merge.

(** C1 (the PDF parser diverges): a second PDF line for a name that already
    has a record replaces the record instead of or-ing the flags.  After
    ["Smith, John 123456789 3 AIG AIG"] both flags are true; after a further
    ["Smith, John 123456789 3 - -"] both are false.  Still one record.  The
    Word parser does merge by or, see [word_row_or_merge]. *)
Theorem pdf_duplicate_overwrites_flags (c : config) :
  let p1 := parse_aig_line (new_processor c) "Smith, John 123456789 3 AIG AIG" in
  let p2 := parse_aig_line p1 "Smith, John 123456789 3 - -" in
  student_details p1 !! "Smith, John"
    = Some (StudentInfo "Smith, John" "123456789" "3" true true)
  ∧ student_details p2 !! "Smith, John"
    = Some (StudentInfo "Smith, John" "123456789" "3" false false)
  ∧ size (student_details p2) = 1.
Proof. vm_compute. split; [|split]; reflexivity. Qed.

(** C5 (same divergence): after the two PDF lines above, read as one text,
    ["Smith, John"] is in the math set and in the reading set while its record
    has both flags false, so the index and the records disagree. *)
Theorem pdf_duplicate_breaks_index (c : config) :
  let text := "Smith, John 123456789 3 AIG AIG" +:+ LF +:+ "Smith, John 123456789 3 - -" in
  let p := _parse_aig_text (new_processor c) text in
  "Smith, John" ∈ aig_students_math p
  ∧ "Smith, John" ∈ aig_students_reading p
  ∧ student_details p !! "Smith, John"
    = Some (StudentInfo "Smith, John" "123456789" "3" false false)
  ∧ ¬ index_consistent p.
Proof.
  intros text p.
  assert (Hm : "Smith, John" ∈ aig_students_math p).
  { by_evaluation. }
  assert (Hr : "Smith, John" ∈ aig_students_reading p).
  { by_evaluation. }
  assert (Hd : student_details p !! "Smith, John"
               = Some (StudentInfo "Smith, John" "123456789" "3" false false)).
  { vm_compute. reflexivity. }
  split; [exact Hm | split; [exact Hr | split; [exact Hd |]]].
  intros H. destruct (H "Smith, John") as [[H1 _] _].
  destruct (H1 Hm) as (info & Hl & Hf). rewrite Hd in Hl.
  injection Hl as <-. discriminate Hf.
Qed.

End Merge.

(** ** Word table rows *)

Section WordRows.

(** C3, as stated, fails: the row [("Doe John", "TD", "-")] has no record
    under ["Doe, John"]; the first token is taken as the first name, so the
    name is ["John, Doe"]. *)
Lemma word_row_doe_john_is_not_doe_comma_john :
  _process_word_name "Doe John" = "John, Doe"
  ∧ student_details (process_word_row (new_processor example_config)
                                      ["Doe John"; "TD"; "-"]) !! "Doe, John" = None.
Proof. vm_compute. split; reflexivity. Qed.

(** C3, amended: a name cell without a comma and with at least two tokens is
    read as first name, then last name, and normalised as ["Last, First"]; so
    the row [("Doe John", "TD", "-")] gives the record ["John, Doe"] with
    reading true and math false, and that name enters the TD-only set and the
    reading index only. *)
Theorem word_row_first_then_last (c : config) :
  (∀ name_text first second rest,
     Str.contains (Str.strip name_text) "," = false →
     Str.split (Str.strip name_text) = first :: second :: rest →
     _process_word_name name_text
       = _normalize_name (Str.join " " (second :: rest) +:+ ", " +:+ first))
  ∧ let p := process_word_row (new_processor c) ["Doe John"; "TD"; "-"] in
    student_details p !! "John, Doe"
      = Some (StudentInfo "John, Doe" "N/A" "N/A" true false)
    ∧ "John, Doe" ∈ td_only_students (stats p)
    ∧ "John, Doe" ∈ aig_students_reading p
    ∧ "John, Doe" ∉ aig_students_math p.
Proof.
  split.
  - intros name_text first second rest Hc Hs. unfold _process_word_name.
    rewrite Hc, Hs. reflexivity.
  - split; [|split; [|split]].
    + vm_compute. reflexivity.
    + by_evaluation.
    + by_evaluation.
    + by_evaluation.
Qed.

Lemma word_row_first_then_last_witness :
  _process_word_name "Doe John" = _normalize_name ("John" +:+ ", " +:+ "Doe").
Proof.
  apply (proj1 (word_row_first_then_last example_config) "Doe John" "Doe" "John" []);
    reflexivity.
Defined.

End WordRows.

(** ** The fallback matcher *)

Section Matching.

Lemma startswith_prefix s p : Str.startswith s p = true ↔ is_prefix p s.
Proof.
  revert s. induction p as [|a p IH]; intros s.
  - destruct s; simpl; (split; [intros _; eexists; reflexivity | reflexivity]).
  - destruct s as [|b s]; simpl.
    + split; [discriminate | intros [r Hr]; discriminate].
    + rewrite andb_true_iff, IH. unfold Char.eqb. rewrite Ascii.eqb_eq. split.
      * intros [-> [r ->]]. exists r. reflexivity.
      * intros [r Hr]. injection Hr as -> ->. split; [reflexivity | exists r; reflexivity].
Qed.





End Matching.

(** ** Rules for methods *)

Section Rules.

Context {A B : Type}.

Lemma hoare_bind (Q : processor → Prop) (m : M A) (R : A → processor → Prop)
    (f : A → M B) (R' : B → processor → Prop) (E : processor → Prop) :
  hoare Q m R E → (∀ a, hoare (R a) (f a) R' E) → hoare Q (m ≫= f) R' E.
Proof.
  intros Hm Hf p Hp. specialize (Hm p Hp).
  unfold mbind, M_bind. destruct (m p) as [[a|e] p']; [apply Hf, Hm | exact Hm].
Qed.

Lemma hoare_ret (Q : processor → Prop) (a : A) (R : A → processor → Prop)
    (E : processor → Prop) :
  (∀ p, Q p → R a p) → hoare Q (mret a) R E.
Proof. intros H p Hp. apply H, Hp. Qed.

Lemma hoare_weaken (Q Q' : processor → Prop) (m : M A) (R R' : A → processor → Prop)
    (E E' : processor → Prop) :
  hoare Q m R E →
  (∀ p, Q' p → Q p) → (∀ a p, R a p → R' a p) → (∀ p, E p → E' p) →
  hoare Q' m R' E'.
Proof.
  intros H HQ HR HE p Hp. specialize (H p (HQ p Hp)).
  destruct (m p) as [[a|e] p']; [apply HR, H | apply HE, H].
Qed.

Lemma hoare_assume (W : Prop) (Q : processor → Prop) (m : M A) (R : A → processor → Prop)
    (E : processor → Prop) :
  (W → hoare Q m R E) → hoare (λ p, Q p ∧ W) m R E.
Proof. intros H p [Hp HW]. apply (H HW), Hp. Qed.

Lemma hoare_attribute (I : processor → Prop) (f : processor → A) (E : processor → Prop) :
  hoare I (attribute f) (λ _, I) E.
Proof. intros p Hp. exact Hp. Qed.

End Rules.

Section InvariantRules.

Context (I E : processor → Prop).

Lemma inv_bind {A B : Type} (m : M A) (f : A → M B) :
  hoare I m (λ _, I) E → (∀ a, hoare I (f a) (λ _, I) E) → hoare I (m ≫= f) (λ _, I) E.
Proof. apply hoare_bind. Qed.

Lemma inv_ret {A : Type} (a : A) : hoare I (mret a) (λ _, I) E.
Proof. apply hoare_ret. auto. Qed.

Lemma inv_modify (f : processor → processor) :
  (∀ p, I p → I (f p)) → hoare I (modify f) (λ _, I) E.
Proof. intros H p Hp. apply H, Hp. Qed.

Lemma inv_logger (l : level) (m : string) :
  stable I → hoare I (logger l m) (λ _, I) E.
Proof. intros [H _]. apply inv_modify, H. Qed.

Lemma inv_saved (path : string) (w : list worksheet) :
  stable I → hoare I (modify (with_saved path w)) (λ _, I) E.
Proof. intros [_ H]. apply inv_modify, H. Qed.

End InvariantRules.

(** ** Classroom rows *)

Section Rows.

(** Resolving a name changes nothing but the log, by at most one debug line. *)
Lemma find_student_effect student_name g p :
  snd (_find_student_in_aig student_name g p) = p
  ∨ ∃ m, snd (_find_student_in_aig student_name g p) = emit DEBUG m p.
Proof.
  unfold _find_student_in_aig.
  destruct (student_details p !! _) as [info|]; [|left; reflexivity].
  destruct g as [g|]; [|left; reflexivity].
  destruct (negb _ && negb _); [right; eexists; reflexivity | left; reflexivity].
Qed.

(** What one body row does: nothing (it is skipped, or reading it raises), or
    the student is counted, the name is marked as seen, the statistics take
    the counter of the status, and at most one debug line is logged. *)
Lemma reconcile_row_effect width g idx row st p :
  snd (reconcile_row width g idx row st p) = p
  ∨ ∃ n status l,
      let p' := snd (reconcile_row width g idx row st p) in
      cfg p' = cfg p
      ∧ student_details p' = student_details p
      ∧ aig_students_math p' = aig_students_math p
      ∧ aig_students_reading p' = aig_students_reading p
      ∧ students_in_sources p' = students_in_sources p
      ∧ students_in_excel p' = {[ n ]} ∪ students_in_excel p
      ∧ saved p' = saved p
      ∧ log p' = (log p ++ l)%list
      ∧ stats p' = (classify status (stats (count_student p))).2.
Proof.
  unfold reconcile_row, mbind, M_bind, lift.
  destruct (iloc width row 0) as [c0|e]; [|left; reflexivity].
  destruct (iloc width row 1) as [c1|e]; [|left; reflexivity].
  cbv zeta. destruct (is_student_row _ _); [|left; reflexivity].
  right. unfold modify, find_status, classify_and_count.
  set (full_name := cell_text c0 +:+ ", " +:+ cell_text c1).
  set (q := add_in_excel (_normalize_name full_name) (count_student p)).
  destruct (find_student_effect full_name g q) as [Hq|[m Hq]];
    destruct (_find_student_in_aig full_name g q) as [status q'];
    simpl in Hq; subst q';
    [exists (_normalize_name full_name), status, [] |
     exists (_normalize_name full_name), status, [LogRecord DEBUG m]];
    cbn [stats emit].
  - destruct (classify status (stats q)) as [[t c] s] eqn:Ec.
    replace (classify status (stats (count_student p))) with (t, c, s) by exact (eq_sym Ec).
    destruct (status_math status || status_reading status);
      cbn; rewrite ?app_nil_r; repeat (split; [reflexivity|]); reflexivity.
  - destruct (classify status (stats q)) as [[t c] s] eqn:Ec.
    replace (classify status (stats (count_student p))) with (t, c, s) by exact (eq_sym Ec).
    destruct (status_math status || status_reading status);
      cbn; repeat (split; [reflexivity|]); reflexivity.
Qed.


(** The part of the row filter that holds: a row whose last name or first
    name is empty, or whose last name is a header word, is skipped. *)
Lemma reconcile_row_skips width g idx c0 c1 rest st p :
  (2 ≤ width)%nat →
  cell_text c0 = "" ∨ cell_text c1 = ""
  ∨ Str.upper (cell_text c0) = "LASTNAME" ∨ Str.upper (cell_text c0) = "LAST" →
  reconcile_row width g idx (c0 :: c1 :: rest) st p = (Ok st, p).
Proof.
  intros Hw H. unfold reconcile_row, mbind, M_bind, lift, iloc.
  destruct width as [|[|w]]; [lia | lia |]. cbn [Nat.ltb Nat.leb nth]. cbv zeta.
  assert (Hs : is_student_row (cell_text c0) (cell_text c1) = false).
  { unfold is_student_row.
    destruct H as [H|[H|[H|H]]]; rewrite H;
      destruct (cell_text c0), (cell_text c1); reflexivity. }
  rewrite Hs. reflexivity.
Qed.

Lemma classify_balanced status p :
  balanced (stats p) → balanced (classify status (stats (count_student p))).2.
Proof.
  unfold balanced, classify. destruct status as [[] []]; simpl; lia.
Qed.

End Rows.

(** ** The reconciler and the outputs, step by step *)

Section Steps.

Context (env : environment) (I E : processor → Prop).
Context (width_ok : nat → Prop) (sheet_ok : string * result dataframe → Prop).

Hypothesis I_stable : stable I.

(** The places where the reconciler can raise: a row read from a frame that
    has fewer than two columns, a sheet that cannot be read, the workbook
    that cannot be opened, a file that cannot be written. *)
Hypothesis row_rule :
  ∀ w, width_ok w → ∀ g i row st, hoare I (reconcile_row w g i row st) (λ _, I) E.
Hypothesis sheet_rule :
  ∀ sheet, sheet_ok sheet →
    hoare I (lift sheet.2)
          (λ df p, I p ∧ ((length (data df) <? 3)%nat = false
                          → width_ok (Nat.min 2 (columns df)))) E.
Hypothesis read_rule :
  hoare I (read_sheets env) (λ sheets p, I p ∧ Forall sheet_ok sheets) E.
Hypothesis write_rule : ∀ path, hoare I (write_file env path) (λ _, I) E.

Lemma reconcile_rows_rule w g rows :
  width_ok w → ∀ i st, hoare I (reconcile_rows w g i rows st) (λ _, I) E.
Proof.
  intros Hw. induction rows as [|row rows IH]; intros i st; simpl.
  - apply inv_ret.
  - apply inv_bind; [apply row_rule, Hw | intros st'; apply IH].
Qed.

Lemma reconcile_sheet_rule colors out sheet :
  sheet_ok sheet → hoare I (reconcile_sheet colors out sheet) (λ _, I) E.
Proof.
  intros Hs. unfold reconcile_sheet. destruct sheet as [sheet_name read].
  eapply hoare_bind; [exact (sheet_rule _ Hs)|]. intros df.
  apply hoare_assume. intros Hw.
  destruct (length (data df) <? 3)%nat eqn:El.
  - apply inv_ret.
  - cbv zeta.
    apply inv_bind; [apply reconcile_rows_rule, Hw, eq_refl | intros st; apply inv_ret].
Qed.

Lemma reconcile_sheets_rule colors sheets :
  Forall sheet_ok sheets → ∀ out, hoare I (reconcile_sheets colors sheets out) (λ _, I) E.
Proof.
  induction 1 as [|sheet sheets Hs _ IH]; intros out; simpl.
  - apply inv_ret.
  - apply inv_bind; [apply reconcile_sheet_rule, Hs | intros out'; apply IH].
Qed.

Lemma load_sheet_colors_rule : hoare I (load_sheet_colors env) (λ _, I) E.
Proof.
  intros p Hp. unfold load_sheet_colors.
  destruct (sheet_tab_colors env _); [exact Hp | apply I_stable, Hp].
Qed.

Lemma update_excel_rule : hoare I (update_excel_with_aig_data env) (λ _, I) E.
Proof.
  unfold update_excel_with_aig_data.
  apply inv_bind; [apply inv_logger, I_stable | intros _].
  apply inv_bind; [apply load_sheet_colors_rule | intros colors].
  eapply hoare_bind; [exact read_rule | intros sheets].
  apply hoare_assume. intros Hsheets.
  apply inv_bind; [apply reconcile_sheets_rule, Hsheets | intros out].
  apply inv_bind; [apply hoare_attribute | intros path].
  apply inv_bind; [apply hoare_attribute | intros path_aig].
  apply inv_bind; [apply write_rule | intros _].
  apply inv_bind; [apply inv_saved, I_stable | intros _].
  apply inv_bind; [apply write_rule | intros _].
  apply inv_bind; [apply inv_saved, I_stable | intros _].
  apply inv_bind; [apply inv_logger, I_stable | intros _].
  apply inv_logger, I_stable.
Qed.

Lemma generate_missing_students_report_rule :
  hoare I (generate_missing_students_report env) (λ _, I) E.
Proof.
  unfold generate_missing_students_report.
  apply inv_bind; [apply inv_logger, I_stable | intros _].
  apply inv_bind; [apply hoare_attribute | intros missing].
  destruct (decide (missing = ∅)); [apply inv_logger, I_stable|]. cbv zeta.
  apply inv_bind; [apply hoare_attribute | intros ws_missing].
  apply inv_bind; [apply hoare_attribute | intros path].
  apply inv_bind; [apply write_rule | intros _].
  apply inv_bind; [apply inv_saved, I_stable | intros _].
  apply inv_bind; [apply inv_logger, I_stable | intros _].
  apply inv_logger, I_stable.
Qed.

Lemma print_statistics_rule : hoare I (print_statistics env) (λ _, I) E.
Proof.
  intros p Hp. unfold print_statistics.
  destruct (save env _); apply I_stable, Hp.
Qed.

Lemma process_outputs_rule : hoare I (process_outputs env) (λ _, I) E.
Proof.
  unfold process_outputs.
  apply inv_bind; [apply update_excel_rule | intros _].
  apply inv_bind; [apply generate_missing_students_report_rule | intros _].
  apply inv_bind; [apply print_statistics_rule | intros _].
  apply inv_bind; [apply inv_logger, I_stable | intros _].
  apply inv_bind; [apply hoare_attribute | intros path].
  apply inv_logger, I_stable.
Qed.

End Steps.

(** ** The status counters *)

Section Counters.

Lemma balanced_stable : stable counters_balanced.
Proof. split; intros; assumption. Qed.

Lemma row_balanced w g i row st : keeps counters_balanced (reconcile_row w g i row st).
Proof.
  intros p Hp. pose proof (reconcile_row_effect w g i row st p) as H.
  destruct (reconcile_row w g i row st p) as [[st'|e] p']; simpl in H;
    (destruct H as [->|(n & status & l & _ & _ & _ & _ & _ & _ & _ & _ & Hs)];
     [exact Hp | unfold counters_balanced; rewrite Hs; apply classify_balanced, Hp]).
Qed.

Lemma parse_aig_line_counters p raw :
  counters (stats (parse_aig_line p raw)) = counters (stats p).
Proof.
  unfold parse_aig_line.
  destruct (Str.is_empty _); [reflexivity|].
  destruct (_ || _); [reflexivity|].
  destruct (Str.contains _ ","); [|reflexivity].
  destruct (split_name_data _) as [name_parts data_parts].
  destruct (1 <=? _)%Z; [|reflexivity].
  destruct (drop _ _) as [|sid [|g [|rs [|ms rest]]]]; try reflexivity.
  match goal with
  | |- context [if ?b then add_td_only _ _ else _] => destruct b
  end; reflexivity.
Qed.

Lemma process_word_row_counters p cells :
  counters (stats (process_word_row p cells)) = counters (stats p).
Proof.
  unfold process_word_row.
  destruct cells as [|c0 [|c1 [|c2 rest]]]; try reflexivity.
  destruct (negb _); [|reflexivity].
  match goal with
  | |- context [if ?b then add_td_only _ _ else _] => destruct b
  end; reflexivity.
Qed.

Lemma balanced_counters s s' : counters s' = counters s → balanced s → balanced s'.
Proof. unfold counters, balanced. intros [= -> -> -> -> ->]. auto. Qed.

Lemma pdf_balanced env : keeps counters_balanced (extract_aig_students_from_pdf env).
Proof.
  intros p Hp. unfold extract_aig_students_from_pdf.
  destruct (pdf_pages env _) as [pages|e]; [|exact Hp].
  unfold _parse_aig_text. apply foldl_invariant; [|exact Hp].
  intros q raw Hq. exact (balanced_counters _ _ (parse_aig_line_counters q raw) Hq).
Qed.

Lemma word_balanced env : keeps counters_balanced (extract_aig_students_from_word env).
Proof.
  intros p Hp. unfold extract_aig_students_from_word.
  destruct (_ || _); [exact Hp|].
  destruct (docx_tables env _) as [tables|e]; [|exact Hp].
  unfold process_word_tables. apply foldl_invariant; [|exact Hp].
  intros q rows Hq. unfold process_word_table. apply foldl_invariant; [|exact Hq].
  intros q' cells Hq'. exact (balanced_counters _ _ (process_word_row_counters q' cells) Hq').
Qed.

Lemma process_balanced env : keeps counters_balanced (process env).
Proof.
  assert (Hsteps : keeps counters_balanced (process_steps env)).
  { unfold keeps, process_steps, process_sources.
    apply inv_bind; [|intros _].
    { apply inv_bind; [apply pdf_balanced | intros _].
      apply inv_bind; [apply hoare_attribute | intros n].
      apply inv_bind; [apply inv_logger, balanced_stable | intros _].
      apply inv_bind; [apply hoare_attribute | intros n'].
      apply inv_bind; [apply inv_logger, balanced_stable | intros _].
      apply inv_bind; [apply word_balanced | intros _].
      apply inv_bind; [apply hoare_attribute | intros m].
      apply inv_bind; [apply inv_logger, balanced_stable | intros _].
      apply inv_bind; [apply hoare_attribute | intros m'].
      apply inv_logger, balanced_stable. }
    apply (process_outputs_rule env counters_balanced counters_balanced (λ _, True) (λ _, True)).
    - apply balanced_stable.
    - intros w _. apply row_balanced.
    - intros [sheet_name [df|e]] _ p Hp; [split; [exact Hp | auto] | exact Hp].
    - intros p Hp. unfold read_sheets.
      destruct (excel_sheets env _) as [sheets|e]; [|exact Hp].
      split; [exact Hp | apply Forall_forall; auto].
    - intros path p Hp. unfold write_file. destruct (save env path); exact Hp. }
  intros p Hp. unfold process.
  specialize (Hsteps (emit INFO "Starting AIG Class List Processing..." p) Hp).
  destruct (process_steps env _) as [[[]|e] p']; exact Hsteps.
Qed.

(** C10: a classroom row either leaves the five counters as they are or adds
    one to [total_students] and to exactly one of [aig_both], [aig_math_only],
    [aig_reading_only], [aig_none]; so at the end of a run of [process],
    however it ends, [total_students] is the sum of the four. *)
Theorem status_counters_add_up :
  (∀ width g idx row st p,
     let s := stats p in
     let s' := stats (snd (reconcile_row width g idx row st p)) in
     counters s' = counters s
     ∨ counters s' = (S (total_students s), S (aig_both s), aig_math_only s,
                      aig_reading_only s, aig_none s)
     ∨ counters s' = (S (total_students s), aig_both s, S (aig_math_only s),
                      aig_reading_only s, aig_none s)
     ∨ counters s' = (S (total_students s), aig_both s, aig_math_only s,
                      S (aig_reading_only s), aig_none s)
     ∨ counters s' = (S (total_students s), aig_both s, aig_math_only s,
                      aig_reading_only s, S (aig_none s)))
  ∧ (∀ env c,
       let s := stats (snd (process env (new_processor c))) in
       total_students s = aig_both s + aig_math_only s + aig_reading_only s + aig_none s).
Proof.
  split.
  - intros width g idx row st p s s'. subst s s'.
    destruct (reconcile_row_effect width g idx row st p)
      as [->|(n & status & l & _ & _ & _ & _ & _ & _ & _ & _ & ->)]; [left; reflexivity|].
    right. destruct status as [[] []]; cbn; auto.
  - intros env c s. subst s.
    pose proof (process_balanced env (new_processor c)) as H.
    destruct (process env (new_processor c)) as [[[]|e] p']; apply H; reflexivity.
Qed.

End Counters.

(** ** Classroom sheets *)

Section Sheets.

(** C2: the PDF line ["Smith, John 123456789 3 AIG TD"] gives the record
    ["Smith, John"], id ["123456789"], grade ["3"], reading and math both
    true; the classroom sheet whose first row reads as grade ["3"] and whose
    only student row is [("Smith", "John")] then gets that row with status
    ["Both Math & Reading"] and the yellow fill [FFFF00], in both
    workbooks. *)
Theorem smith_john_scenario (c : config) :
  let p := parse_aig_line (new_processor c) "Smith, John 123456789 3 AIG TD" in
  let row := [VStr "Smith"; VStr "John"; VBool true; VBool true;
              VStr "Both Math & Reading"] in
  let sheet := Worksheet "Room 1" None
                 [[VCell (Text "Heinze 3rd Grade T1"); VCell NaN];
                  [VStr "LASTNAME"; VStr "FIRSTNAME"; VStr "AIG Math";
                   VStr "AIG Reading"; VStr "AIG Status"];
                  row]
                 [(3, PatternFill "FFFF00")] in
  student_details p !! "Smith, John"
    = Some (StudentInfo "Smith, John" "123456789" "3" true true)
  ∧ classroom_grade (row_values 2 [Text "Heinze 3rd Grade T1"]) = Some "3"
  ∧ fst (_find_student_in_aig ("Smith" +:+ ", " +:+ "John") (Some "3") p)
    = AigStatus true true
  ∧ fst (classify (AigStatus true true) (stats p))
    = ("Both Math & Reading", Some colors_both)
  ∧ fst (reconcile_sheet ∅ (Workbooks [] []) ("Room 1", Ok example_classroom) p)
    = Ok (Workbooks [sheet] [sheet]).
Proof.
  vm_compute. split; [|split; [|split; [|split]]]; reflexivity.
Qed.




(** C8 (the first-name test is missing): the body row [("Smith", "FIRSTNAME")],
    whose first name is the header word, is not skipped: it is counted in
    [total_students] and in [aig_none], marked as seen and written to the
    main sheet with status ["None"]. *)
Theorem firstname_header_row_is_counted (c : config) (st : sheet_state) :
  let row_data := [VStr "Smith"; VStr "FIRSTNAME"; VBool false; VBool false;
                   VStr "None"] in
  let out := reconcile_row 2 None 3 [Text "Smith"; Text "FIRSTNAME"] st (new_processor c) in
  fst out = Ok (SheetState (ws_append row_data (ws st)) (ws_aig_only st) (aig_row_idx st))
  ∧ total_students (stats (snd out)) = 1
  ∧ aig_none (stats (snd out)) = 1
  ∧ "Smith, Firstname" ∈ students_in_excel (snd out).
Proof.
  intros row_data out. split; [|split; [|split]].
  - vm_compute. reflexivity.
  - vm_compute. reflexivity.
  - vm_compute. reflexivity.
  - by_evaluation.
Qed.

End Sheets.

(** ** A Word document that cannot be used *)

Section WordDocument.


Lemma parse_aig_line_cfg p raw : cfg (parse_aig_line p raw) = cfg p.
Proof.
  unfold parse_aig_line.
  destruct (Str.is_empty _); [reflexivity|].
  destruct (_ || _); [reflexivity|].
  destruct (Str.contains _ ","); [|reflexivity].
  destruct (split_name_data _) as [name_parts data_parts].
  destruct (1 <=? _)%Z; [|reflexivity].
  destruct (drop _ _) as [|sid [|g [|rs [|ms rest]]]]; try reflexivity.
  match goal with
  | |- context [if ?b then add_td_only _ _ else _] => destruct b
  end; reflexivity.
Qed.










End WordDocument.

(** ** Normalisation, tokens and case *)

Section Tokens.

Lemma split_lstrip s : Str.split (Str.lstrip s) = Str.split s.
Proof.
  induction s as [|c s IH]; [reflexivity|]. simpl.
  destruct (Char.isspace c) eqn:Ec; [exact IH|]. simpl. rewrite Ec. reflexivity.
Qed.

Lemma starts_token_rstrip s : Str.starts_token (Str.rstrip s) = Str.starts_token s.
Proof.
  destruct s as [|c s]; [reflexivity|]. simpl.
  destruct (Char.isspace c) eqn:Ec; simpl.
  - destruct (Str.is_empty (Str.rstrip s)); simpl; [reflexivity | rewrite Ec; reflexivity].
  - rewrite Ec. reflexivity.
Qed.

Lemma split_rstrip s : Str.split (Str.rstrip s) = Str.split s.
Proof.
  induction s as [|c s IH]; [reflexivity|]. simpl.
  destruct (Char.isspace c) eqn:Ec; simpl.
  - destruct (Str.rstrip s) as [|d r] eqn:Er; simpl.
    + exact IH.
    + rewrite Ec. exact IH.
  - rewrite Ec, starts_token_rstrip, IH. reflexivity.
Qed.

Lemma split_strip s : Str.split (Str.strip s) = Str.split s.
Proof. unfold Str.strip. rewrite split_rstrip. apply split_lstrip. Qed.

Lemma split_collapse s : Str.split (Str.collapse_ws s) = Str.split s.
Proof.
  induction s as [|c s IH]; [reflexivity|]. simpl.
  destruct (Char.isspace c) eqn:Ec.
  - destruct (Str.starts_blank s); [exact IH|]. exact IH.
  - simpl. rewrite Ec, (proj2 (starts_collapse s)), IH. reflexivity.
Qed.

Lemma split_starts_token s : Str.starts_token s = true → Str.split s ≠ [].
Proof.
  destruct s as [|c s]; [discriminate|]. simpl. intros H.
  apply negb_true_iff in H. rewrite H.
  destruct (Str.starts_token s); [destruct (Str.split s)|]; discriminate.
Qed.

Lemma join_cons_char c t ts :
  Str.join " " (String c t :: ts) = String c (Str.join " " (t :: ts)).
Proof. destruct ts; reflexivity. Qed.

(** A tidy string is its tokens joined by single spaces, after its leading
    space if it has one. *)
Lemma join_split_tidy s :
  Str.tidy s = true →
  Str.join " " (Str.split s)
  = (if Str.starts_blank s then match s with String _ r => r | EmptyString => "" end else s).
Proof.
  induction s as [|c s IH]; [reflexivity|]. simpl. intros H.
  apply andb_true_iff in H as [Hc Hs]. specialize (IH Hs).
  destruct (Char.isspace c) eqn:Ec.
  - apply andb_true_iff in Hc as [_ Ht]. rewrite IH.
    destruct s as [|d s]; [discriminate|]. simpl in *.
    apply negb_true_iff in Ht. rewrite Ht. reflexivity.
  - destruct (Str.starts_token s) eqn:Et.
    + pose proof (split_starts_token s Et) as Hne.
      assert (Hb : Str.starts_blank s = false).
      { destruct s as [|d s]; [reflexivity|]. simpl in *.
        apply negb_true_iff in Et. exact Et. }
      rewrite Hb in IH.
      destruct (Str.split s) as [|t ts]; [contradiction|].
      rewrite join_cons_char, IH. reflexivity.
    + destruct s as [|d s2]; [reflexivity|].
      assert (Ed : Char.isspace d = true).
      { simpl in Et. apply negb_false_iff in Et. exact Et. }
      cbn [Str.starts_blank] in IH. rewrite Ed in IH.
      cbn [Str.tidy] in Hs. rewrite Ed in Hs.
      apply andb_true_iff in Hs as [Hd _]. apply andb_true_iff in Hd as [Hd Ht].
      apply Ascii.eqb_eq in Hd. subst d.
      assert (Hne : Str.split (String " " s2) ≠ []).
      { change (Str.split (String " " s2)) with (Str.split s2).
        apply split_starts_token, Ht. }
      destruct (Str.split (String " " s2)) as [|t ts]; [contradiction|].
      change (Str.join " " (String c "" :: t :: ts))
        with (String c (String " " (Str.join " " (t :: ts)))).
      rewrite IH. reflexivity.
Qed.


Lemma normalize_tokens z : _normalize_name z = Str.title (Str.join " " (Str.split z)).
Proof.
  unfold _normalize_name. f_equal.
  set (y := Str.collapse_ws (Str.strip z)).
  assert (Ht : Str.tidy y = true) by apply tidy_collapse, ends_blank_rstrip.
  assert (Hb : Str.starts_blank y = false).
  { unfold y. rewrite (proj1 (starts_collapse _)).
    apply starts_blank_rstrip, starts_blank_lstrip. }
  rewrite <- (split_strip z), <- (split_collapse (Str.strip z)). fold y.
  rewrite (join_split_tidy y Ht), Hb. reflexivity.
Qed.

(** X1: the normal form of a name is the title case of its tokens joined by
    single spaces; blanks, of whatever kind and number, only separate the
    tokens, so two names with the same tokens have the same normal form. *)
Theorem normalize_name_is_title_of_tokens (x : string) :
  _normalize_name x = Str.title (Str.join " " (Str.split x))
  ∧ ∀ y, Str.split x = Str.split y → _normalize_name x = _normalize_name y.
Proof.
  split; [apply normalize_tokens|].
  intros y Hxy. rewrite (normalize_tokens x), (normalize_tokens y), Hxy. reflexivity.
Qed.

Lemma normalize_name_is_title_of_tokens_witness :
  _normalize_name "  john   SMITH " = _normalize_name "john SMITH".
Proof.
  destruct (normalize_name_is_title_of_tokens "  john   SMITH ") as [_ H].
  apply (H "john SMITH"). vm_compute. reflexivity.
Defined.

End Tokens.

Section Case.

#[local] Ltac by_cases c :=
  destruct c as [[] [] [] [] [] [] [] []]; vm_compute; try reflexivity; try discriminate.





(** A change of case, character by character. *)
Context (f : ascii → ascii).
Hypothesis f_space : ∀ c, Char.isspace (f c) = Char.isspace c.
Hypothesis f_cased : ∀ c, Char.iscased (f c) = Char.iscased c.
Hypothesis f_title : ∀ b c, Str.title_char b (f c) = Str.title_char b c.
Hypothesis f_blank : f " "%char = " "%char.







End Case.

Section CaseInsensitive.


End CaseInsensitive.

(** ** The records the parsers store *)

Section Stores.

Lemma find_student_id_found l :
  ∀ i j, find_student_id i l = j → j ≠ (-1)%Z → (0 ≤ i)%Z →
    (i ≤ j)%Z
    ∧ ∃ sid rest, drop (Z.to_nat (j - i)) l = sid :: rest ∧ is_student_id sid = true.
Proof.
  induction l as [|part l IH]; intros i j Hf Hj Hi; cbn [find_student_id] in Hf;
    [congruence|].
  destruct (Str.isdigit part && (8 <=? String.length part)%nat) eqn:Eid.
  - subst j. split; [lia|]. rewrite Z.sub_diag. simpl. eauto.
  - destruct (IH (i + 1)%Z j Hf Hj ltac:(lia)) as (Hle & sid & rest & Hd & Hs).
    split; [lia|]. exists sid, rest. split; [|exact Hs].
    replace (Z.to_nat (j - i)) with (S (Z.to_nat (j - (i + 1)))) by lia.
    exact Hd.
Qed.

Lemma find_student_id_none l i :
  Forall (λ t, is_student_id t = false) l → find_student_id i l = (-1)%Z.
Proof.
  intros H. revert i. induction H as [|t l Ht _ IH]; intros i; [reflexivity|].
  cbn [find_student_id]. unfold is_student_id in Ht. rewrite Ht. apply IH.
Qed.

(** A PDF line is ignored or stored as [pdf_store] says, under a normalised
    name and with an id of 8 digits or more. *)
Lemma parse_aig_line_cases p raw :
  parse_aig_line p raw = p
  ∨ ∃ full_name sid g reading_status math_status,
      is_student_id sid = true
      ∧ parse_aig_line p raw
        = pdf_store p (_normalize_name full_name) sid g reading_status math_status.
Proof.
  unfold parse_aig_line.
  destruct (Str.is_empty _); [by left|].
  destruct (_ || _); [by left|].
  destruct (Str.contains _ ","); [|by left].
  destruct (split_name_data _) as [name_parts data_parts].
  destruct (1 <=? _)%Z eqn:Eidx; [|by left].
  apply Z.leb_le in Eidx.
  destruct (find_student_id_found data_parts 0 _ eq_refl ltac:(lia) ltac:(lia))
    as (_ & sid0 & rest0 & Hd & Hs).
  rewrite Z.sub_0_r in Hd. rewrite Hd.
  destruct rest0 as [|g [|rs [|ms rest]]]; try by left.
  right. eexists _, sid0, g, rs, ms. split; [exact Hs|]. reflexivity.
Qed.

(** A Word row is ignored or stored as [word_store] says, under the name
    [_process_word_name] gives. *)
Lemma process_word_row_cases p cells :
  process_word_row p cells = p
  ∨ ∃ name_text reading_text math_text,
      process_word_row p cells
      = word_store p (_process_word_name name_text) reading_text math_text.
Proof.
  unfold process_word_row.
  destruct cells as [|c0 [|c1 [|c2 rest]]]; try by left.
  destruct (negb _); [|by left].
  right. exists (Str.strip c0), (Str.strip c1), (Str.strip c2).
  unfold word_store, word_record, word_flag, word_td_only.
  match goal with
  | |- context [if ?b then add_td_only _ _ else _] => destruct b
  end; cbn [student_details add_td_only with_stats];
    match goal with
    | |- context [student_details p !! ?n] => destruct (student_details p !! n)
    end; reflexivity.
Qed.




Lemma pdf_store_stored p n sid g rs ms :
  stored p (pdf_store p n sid g rs ms) n
         (StudentInfo n sid g (pdf_flag rs) (pdf_flag ms))
         (pdf_flag rs) (pdf_flag ms) (pdf_td_only rs ms).
Proof.
  unfold stored, pdf_store. destruct (pdf_td_only rs ms); repeat split.
Qed.

Lemma word_store_stored p n rt mt :
  stored p (word_store p n rt mt) n
         (word_record (student_details p !! n) n (word_flag rt) (word_flag mt))
         (word_flag rt) (word_flag mt) (word_td_only rt mt).
Proof.
  unfold stored, word_store. destruct (word_td_only rt mt); repeat split.
Qed.








Lemma sources_grow_refl p : sources_grow p p.
Proof. unfold sources_grow. repeat split; eauto. Qed.

Lemma sources_grow_trans p q r : sources_grow p q → sources_grow q r → sources_grow p r.
Proof.
  intros (Hd & Hm & Hr & Hs & Ht) (Hd' & Hm' & Hr' & Hs' & Ht').
  split; [|split; [|split; [|split]]]; [|set_solver..].
  intros n info Hl. destruct (Hd _ _ Hl) as [info' Hl']. eapply Hd', Hl'.
Qed.

Lemma sources_grow_stored p p' n info r m td :
  stored p p' n info r m td → sources_grow p p'.
Proof.
  intros (Hd & Hs & Hm & Hr & Ht & _). unfold sources_grow. rewrite Hd, Hs, Hm, Hr, Ht.
  split; [|split; [|split; [|split]]].
  - intros n' info' Hl. destruct (decide (n = n')) as [<-|Hne].
    + rewrite lookup_insert_eq. eauto.
    + rewrite lookup_insert_ne by exact Hne. eauto.
  - clear. destruct m; set_solver.
  - clear. destruct r; set_solver.
  - clear. set_solver.
  - clear. destruct td; set_solver.
Qed.

Lemma sources_grow_pdf_line p raw : sources_grow p (parse_aig_line p raw).
Proof.
  destruct (parse_aig_line_cases p raw) as [-> | (full & sid & g & rs & ms & _ & ->)];
    [apply sources_grow_refl|].
  eapply sources_grow_stored, pdf_store_stored.
Qed.

Lemma sources_grow_word_row p cells : sources_grow p (process_word_row p cells).
Proof.
  destruct (process_word_row_cases p cells) as [-> | (t & rt & mt & ->)];
    [apply sources_grow_refl|].
  eapply sources_grow_stored, word_store_stored.
Qed.

Lemma sources_grow_foldl {A : Type} (f : processor → A → processor) :
  (∀ p x, sources_grow p (f p x)) → ∀ l p, sources_grow p (foldl f p l).
Proof.
  intros Hf l. induction l as [|x l IH]; intros p; [apply sources_grow_refl|].
  simpl. eapply sources_grow_trans; [apply Hf | apply IH].
Qed.

End Stores.

Section SourceProperties.


(** X4: the parsers only add: whatever the state, the PDF text and the
    Word tables, every name that had a record still has one afterwards, and
    the two sets of the index, the set of names seen and the TD-only set
    lose no name. *)
Theorem sources_only_grow (p : processor) (text : string)
    (tables : list (list (list string))) :
  sources_grow p (process_word_tables (_parse_aig_text p text) tables).
Proof.
  apply (sources_grow_trans _ (_parse_aig_text p text)).
  - unfold _parse_aig_text. apply sources_grow_foldl, sources_grow_pdf_line.
  - unfold process_word_tables. apply sources_grow_foldl. intros q rows.
    unfold process_word_table. apply sources_grow_foldl, sources_grow_word_row.
Qed.

End SourceProperties.

(** ** Word rows merge, PDF lines overwrite *)

Section WordMerge.

Lemma record_kept_refl info : record_kept info info.
Proof. unfold record_kept. auto. Qed.

Lemma record_kept_trans a b c : record_kept a b → record_kept b c → record_kept a c.
Proof.
  intros (Hn & Hi & Hg & Hr & Hm) (Hn' & Hi' & Hg' & Hr' & Hm').
  unfold record_kept. rewrite Hn', Hi', Hg'.
  split; [exact Hn|]. split; [exact Hi|]. split; [exact Hg|].
  split; intros H; [apply Hr', Hr, H | apply Hm', Hm, H].
Qed.

Lemma word_row_keeps_record p cells n old :
  student_details p !! n = Some old →
  ∃ new, student_details (process_word_row p cells) !! n = Some new ∧ record_kept old new.
Proof.
  intros Hold.
  destruct (process_word_row_cases p cells) as [-> | (t & rt & mt & ->)].
  - exists old. split; [exact Hold | apply record_kept_refl].
  - destruct (word_store_stored p (_process_word_name t) rt mt) as (Hd & _). rewrite Hd.
    destruct (decide (_process_word_name t = n)) as [->|Hne].
    + rewrite lookup_insert_eq, Hold. eexists. split; [reflexivity|].
      unfold record_kept. simpl. repeat split; intros ->; reflexivity.
    + rewrite lookup_insert_ne by exact Hne. exists old.
      split; [exact Hold | apply record_kept_refl].
Qed.

Lemma foldl_keeps_record {A : Type} (f : processor → A → processor) :
  (∀ p x n old, student_details p !! n = Some old →
     ∃ new, student_details (f p x) !! n = Some new ∧ record_kept old new) →
  ∀ l p n old, student_details p !! n = Some old →
    ∃ new, student_details (foldl f p l) !! n = Some new ∧ record_kept old new.
Proof.
  intros Hf l. induction l as [|x l IH]; intros p n old Hold.
  - exists old. split; [exact Hold | apply record_kept_refl].
  - destruct (Hf p x n old Hold) as (mid & Hmid & Hk).
    destruct (IH (f p x) n mid Hmid) as (new & Hnew & Hk').
    exists new. split; [exact Hnew | eapply record_kept_trans; eassumption].
Qed.

Lemma index_consistent_new c : index_consistent (new_processor c).
Proof.
  intros n. simpl. split; (split; [intros H; clear -H; set_solver|]);
    intros (info & H & _); rewrite lookup_empty in H; discriminate.
Qed.

(** X5: the Word parser merges: whatever tables it reads, a record that
    exists keeps its name, its id, its grade and every flag that was set. *)
Theorem word_tables_or_merge (p : processor) (tables : list (list (list string)))
    (n : string) (old : student_info) :
  student_details p !! n = Some old →
  ∃ new, student_details (process_word_tables p tables) !! n = Some new
         ∧ record_kept old new.
Proof.
  unfold process_word_tables. revert p n old. apply foldl_keeps_record.
  intros p rows. unfold process_word_table. revert p. apply foldl_keeps_record.
  apply word_row_keeps_record.
Qed.

Lemma word_tables_or_merge_witness :
  ∃ new,
    student_details
      (process_word_tables
         (parse_aig_line (new_processor example_config) "Smith, John 123456789 3 AIG -")
         [[["Name"; "Reading"; "Math"]; ["John Smith"; "-"; "TD"]]])
      !! "Smith, John" = Some new
    ∧ record_kept (StudentInfo "Smith, John" "123456789" "3" true false) new.
Proof.
  apply (word_tables_or_merge
           (parse_aig_line (new_processor example_config) "Smith, John 123456789 3 AIG -")
           [[["Name"; "Reading"; "Math"]; ["John Smith"; "-"; "TD"]]]
           "Smith, John" (StudentInfo "Smith, John" "123456789" "3" true false)).
  vm_compute. reflexivity.
Defined.

(** X6: when the Word tables are the only source, the index and the
    records agree: a name is in the set of a subject exactly when its record
    has the flag of that subject. *)
Theorem word_only_index_consistent (c : config) (tables : list (list (list string))) :
  index_consistent (process_word_tables (new_processor c) tables).
Proof.
  unfold process_word_tables. apply foldl_invariant; [|apply index_consistent_new].
  intros p rows Hp. unfold process_word_table.
  apply foldl_invariant; [apply word_row_index_consistent | exact Hp].
Qed.

End WordMerge.

(** ** Looking up a stored name *)

Section Lookup.



End Lookup.

(** ** The fallback comparison of names *)

Section NamesMatch.

(** X8: the fallback comparison of two names does not depend on their
    order. *)
Theorem names_match_symmetric (name1 name2 : string) :
  _names_match name1 name2 = _names_match name2 name1.
Proof.
  unfold _names_match.
  destruct (Str.split (Str.remove_commas name1)) as [|last1 [|first1 rest1]];
    destruct (Str.split (Str.remove_commas name2)) as [|last2 [|first2 rest2]];
    try reflexivity.
  cbn [length Nat.leb andb].
  rewrite (String.eqb_sym (Str.lower last2) (Str.lower last1)).
  destruct (String.eqb (Str.lower last1) (Str.lower last2)); [|reflexivity].
  rewrite (String.eqb_sym (Str.lower first2) (Str.lower first1)).
  destruct (String.eqb (Str.lower first1) (Str.lower first2)); [reflexivity|].
  apply orb_comm.
Qed.

(** X9: the fallback comparison reads the first two tokens of a name and
    nothing else: two names that agree on them, commas apart, compare alike
    with every other name.  So the first name of a student whose last name
    has two words or more is never compared. *)
Theorem names_match_reads_two_tokens (name1 name1' name2 : string) :
  take 2 (name_tokens name1) = take 2 (name_tokens name1') →
  _names_match name1 name2 = _names_match name1' name2.
Proof.
  unfold _names_match, name_tokens. intros H.
  destruct (Str.split (Str.remove_commas name1)) as [|last1 [|first1 rest1]];
    destruct (Str.split (Str.remove_commas name1')) as [|last1' [|first1' rest1']];
    try discriminate H; try reflexivity.
  injection H as -> ->. reflexivity.
Qed.

Lemma names_match_reads_two_tokens_witness :
  _names_match "De La Cruz, Maria" "De La Cruz, Ana"
  = _names_match "De La Cruz, Ana" "De La Cruz, Ana".
Proof.
  apply (names_match_reads_two_tokens "De La Cruz, Maria" "De La Cruz, Ana"
                                      "De La Cruz, Ana").
  vm_compute. reflexivity.
Defined.

End NamesMatch.

(** ** Roster lines *)

Section RosterLines.

Lemma split_cons c s :
  Str.split (String c s)
  = if Char.isspace c then Str.split s
    else if Str.starts_token s
         then match Str.split s with
              | t :: ts => String c t :: ts
              | [] => [String c EmptyString]
              end
         else String c EmptyString :: Str.split s.
Proof. reflexivity. Qed.

Lemma split_token c t :
  Char.isspace c = false → no_blank t = true → Str.split (String c t) = [String c t].
Proof.
  revert c. induction t as [|d t IH]; intros c Hc Ht; rewrite split_cons, Hc.
  - reflexivity.
  - cbn [no_blank] in Ht. apply andb_true_iff in Ht as [Hd Ht].
    cbn [Str.starts_token]. rewrite Hd.
    apply negb_true_iff in Hd. rewrite (IH d Hd Ht). reflexivity.
Qed.

Lemma split_token_app c t s :
  Char.isspace c = false → no_blank t = true →
  Str.split (String c t +:+ " " +:+ s) = String c t :: Str.split s.
Proof.
  revert c. induction t as [|d t IH]; intros c Hc Ht.
  - change (String c "" +:+ " " +:+ s) with (String c (String " " s)).
    rewrite split_cons, Hc. reflexivity.
  - cbn [no_blank] in Ht. apply andb_true_iff in Ht as [Hd Ht].
    change (String c (String d t) +:+ " " +:+ s)
      with (String c (String d t +:+ " " +:+ s)).
    rewrite split_cons, Hc.
    change (Str.starts_token (String d t +:+ " " +:+ s)) with (negb (Char.isspace d)).
    rewrite Hd. apply negb_true_iff in Hd. rewrite (IH d Hd Ht). reflexivity.
Qed.

Lemma is_token_cons t :
  is_token t = true →
  ∃ c r, t = String c r ∧ Char.isspace c = false ∧ no_blank r = true.
Proof.
  destruct t as [|c r]; [discriminate|]. unfold is_token. cbn [Str.is_empty no_blank negb andb].
  intros [Hc Hr]%andb_true_iff. apply negb_true_iff in Hc. eauto.
Qed.

Lemma split_join_tokens ts :
  forallb is_token ts = true → Str.split (Str.join " " ts) = ts.
Proof.
  induction ts as [|t ts IH]; [reflexivity|]. cbn [forallb].
  intros [Ht Hts]%andb_true_iff.
  destruct (is_token_cons t Ht) as (c & r & -> & Hc & Hr).
  destruct ts as [|t2 ts].
  - apply split_token; assumption.
  - change (Str.join " " (String c r :: t2 :: ts))
      with (String c r +:+ " " +:+ Str.join " " (t2 :: ts)).
    rewrite (split_token_app c r _ Hc Hr), (IH Hts). reflexivity.
Qed.

Lemma tidy_token_app t s :
  no_blank t = true → Str.tidy s = true → Str.starts_token s = true →
  Str.tidy (t +:+ " " +:+ s) = true.
Proof.
  intros Ht Hs Hst. induction t as [|c t IH].
  - change ("" +:+ " " +:+ s) with (String " " s). cbn [Str.tidy].
    rewrite Hst, Hs. reflexivity.
  - cbn [no_blank] in Ht. apply andb_true_iff in Ht as [Hc Ht].
    change (String c t +:+ " " +:+ s) with (String c (t +:+ " " +:+ s)).
    cbn [Str.tidy]. apply negb_true_iff in Hc. rewrite Hc, (IH Ht). reflexivity.
Qed.

Lemma tidy_token t : no_blank t = true → Str.tidy t = true.
Proof.
  induction t as [|c t IH]; [reflexivity|]. cbn [no_blank Str.tidy].
  intros [Hc Ht]%andb_true_iff. apply negb_true_iff in Hc. rewrite Hc, (IH Ht). reflexivity.
Qed.

Lemma join_tokens_tidy t ts :
  forallb is_token (t :: ts) = true →
  Str.tidy (Str.join " " (t :: ts)) = true
  ∧ Str.starts_token (Str.join " " (t :: ts)) = true.
Proof.
  revert t. induction ts as [|t2 ts IH]; intros t; cbn [forallb];
    intros [Ht Hts]%andb_true_iff;
    destruct (is_token_cons t Ht) as (c & r & -> & Hc & Hr).
  - cbn [Str.join]. split.
    + apply tidy_token. cbn [no_blank]. rewrite Hc, Hr. reflexivity.
    + cbn [Str.starts_token]. rewrite Hc. reflexivity.
  - destruct (IH t2 Hts) as [Htidy Hst].
    change (Str.join " " (String c r :: t2 :: ts))
      with (String c r +:+ " " +:+ Str.join " " (t2 :: ts)).
    split.
    + apply tidy_token_app; [|exact Htidy | exact Hst].
      cbn [no_blank]. rewrite Hc, Hr. reflexivity.
    + change (negb (Char.isspace c) = true). rewrite Hc. reflexivity.
Qed.

Lemma strip_join_tokens ts :
  forallb is_token ts = true → Str.strip (Str.join " " ts) = Str.join " " ts.
Proof.
  destruct ts as [|t ts]; [reflexivity|]. intros H.
  destruct (join_tokens_tidy t ts H) as [Htidy Hst].
  apply strip_tidy; [exact Htidy|].
  destruct (Str.join " " (t :: ts)) as [|c s]; [reflexivity|].
  cbn [Str.starts_token] in Hst. cbn [Str.starts_blank].
  apply negb_true_iff in Hst. exact Hst.
Qed.

Lemma startswith_app s r p :
  Str.startswith s p = true → Str.startswith (s +:+ r) p = true.
Proof.
  revert s. induction p as [|a p IH]; intros s.
  { intros _. destruct (s +:+ r); reflexivity. }
  destruct s as [|b s]; [discriminate|]. cbn [Str.startswith].
  change (String b s +:+ r) with (String b (s +:+ r)). cbn [Str.startswith].
  intros [Hab Hs]%andb_true_iff. rewrite Hab, (IH s Hs). reflexivity.
Qed.

Lemma contains_unfold s p :
  Str.contains s p
  = Str.startswith s p || match s with EmptyString => false | String _ s' => Str.contains s' p end.
Proof. destruct s; reflexivity. Qed.

Lemma contains_app_l a b p :
  Str.contains a p = true → Str.contains (a +:+ b) p = true.
Proof.
  induction a as [|c a IH]; rewrite contains_unfold; intros H.
  - rewrite orb_false_r in H. destruct p; [|discriminate].
    rewrite contains_unfold. by destruct b.
  - change (String c a +:+ b) with (String c (a +:+ b)). rewrite contains_unfold.
    apply orb_true_iff in H as [H|H].
    + change (String c (a +:+ b)) with (String c a +:+ b).
      rewrite (startswith_app _ b _ H). reflexivity.
    + rewrite (IH H). apply orb_true_r.
Qed.

Lemma contains_app_r a b p :
  Str.contains b p = true → Str.contains (a +:+ b) p = true.
Proof.
  intros H. induction a as [|c a IH]; [exact H|].
  change (String c a +:+ b) with (String c (a +:+ b)). rewrite contains_unfold, IH.
  apply orb_true_r.
Qed.

Lemma contains_join sep t ts p :
  In t ts → Str.contains t p = true → Str.contains (Str.join sep ts) p = true.
Proof.
  intros Hin Ht. induction ts as [|t0 ts IH]; [destruct Hin|].
  destruct ts as [|t1 ts].
  - destruct Hin as [->|[]]. exact Ht.
  - change (Str.join sep (t0 :: t1 :: ts)) with (t0 +:+ sep +:+ Str.join sep (t1 :: ts)).
    destruct Hin as [->|Hin].
    + apply contains_app_l, Ht.
    + apply contains_app_r, contains_app_r, IH, Hin.
Qed.

Lemma split_name_data_app pre ct rest :
  forallb (λ t, negb (Str.contains t ",")) pre = true →
  Str.contains ct "," = true →
  split_name_data (pre ++ ct :: rest) = ((pre ++ [ct])%list, rest).
Proof.
  intros Hpre Hct. induction pre as [|t pre IH]; cbn [app split_name_data].
  - rewrite Hct. reflexivity.
  - cbn [forallb] in Hpre. apply andb_true_iff in Hpre as [Ht Hpre].
    apply negb_true_iff in Ht. rewrite Ht, (IH Hpre). reflexivity.
Qed.

Lemma split_name_data_suffix parts :
  ∃ skipped, parts = (skipped ++ (split_name_data parts).2)%list.
Proof.
  induction parts as [|t parts [skipped IH]]; [by exists []|].
  cbn [split_name_data]. destruct (Str.contains t ",").
  - by exists [t].
  - destruct (split_name_data parts) as [np dp]. exists (t :: skipped).
    simpl in *. by rewrite <- IH.
Qed.

Lemma find_student_id_app firsts sid tail i :
  forallb (λ t, negb (is_student_id t)) firsts = true →
  is_student_id sid = true →
  find_student_id i (firsts ++ sid :: tail) = (i + Z.of_nat (length firsts))%Z.
Proof.
  intros Hf Hs. revert i. induction firsts as [|t firsts IH]; intros i;
    cbn [app find_student_id].
  - unfold is_student_id in Hs. rewrite Hs. simpl. lia.
  - cbn [forallb] in Hf. apply andb_true_iff in Hf as [Ht Hf].
    apply negb_true_iff in Ht. unfold is_student_id in Ht. rewrite Ht, (IH Hf).
    cbn [length]. lia.
Qed.

Lemma append_assoc (a b c : string) : (a +:+ b) +:+ c = a +:+ b +:+ c.
Proof.
  induction a as [|x a IH]; [reflexivity|].
  change (String x ((a +:+ b) +:+ c) = String x (a +:+ b +:+ c)). f_equal. exact IH.
Qed.

Lemma join_app sep a b bs :
  a ≠ [] →
  Str.join sep (a ++ b :: bs) = Str.join sep a +:+ sep +:+ Str.join sep (b :: bs).
Proof.
  induction a as [|x a IH]; [done|]. intros _.
  destruct a as [|y a]; [reflexivity|].
  change (Str.join sep ((x :: y :: a) ++ b :: bs))
    with (x +:+ sep +:+ Str.join sep ((y :: a) ++ b :: bs)).
  rewrite IH by discriminate.
  change (Str.join sep (x :: y :: a)) with (x +:+ sep +:+ Str.join sep (y :: a)).
  rewrite !append_assoc. reflexivity.
Qed.

Lemma forallb_app_iff {A : Type} (f : A → bool) l k :
  forallb f (l ++ k) = true ↔ forallb f l = true ∧ forallb f k = true.
Proof. rewrite forallb_app. apply andb_true_iff. Qed.

(** X10: a roster line written as its tokens joined by single spaces is
    read back field by field: the record is stored under the title case of the
    name tokens joined by single spaces, with the id, the grade and the flags
    of the two statuses, whatever follows the statuses on the line. *)
Theorem roster_line_round_trip (p : processor) (last_name : list string)
    (comma_token first : string) (first_name : list string)
    (sid g reading_status math_status : string) (extra : list string) :
  let tokens := roster_tokens last_name comma_token (first :: first_name)
                              sid g reading_status math_status extra in
  let n := Str.title (Str.join " " (roster_name last_name comma_token (first :: first_name))) in
  forallb is_token tokens = true →
  forallb (λ t, negb (Str.contains t ",")) last_name = true →
  Str.contains comma_token "," = true →
  forallb (λ t, negb (is_student_id t)) (first :: first_name) = true →
  is_student_id sid = true →
  Str.contains (Str.join " " tokens) "Name Student Id Grade Reading Math" = false →
  Str.contains (Str.join " " tokens) "School Roster" = false →
  parse_aig_line p (Str.join " " tokens) = pdf_store p n sid g reading_status math_status
  ∧ student_details (parse_aig_line p (Str.join " " tokens)) !! n
    = Some (StudentInfo n sid g (pdf_flag reading_status) (pdf_flag math_status)).
Proof.
  intros tokens n Htok Hlast Hcomma Hfirst Hsid Hh1 Hh2.
  assert (Hline : parse_aig_line p (Str.join " " tokens)
                  = pdf_store p n sid g reading_status math_status).
  { unfold parse_aig_line.
    rewrite (strip_join_tokens tokens Htok), Hh1, Hh2. cbn [orb].
    assert (Hin : In comma_token tokens).
    { unfold tokens, roster_tokens. apply in_or_app. right. left. reflexivity. }
    rewrite (contains_join " " comma_token tokens "," Hin Hcomma).
    assert (Hne : Str.is_empty (Str.join " " tokens) = false).
    { pose proof (split_join_tokens tokens Htok) as Hs.
      destruct (Str.join " " tokens); [|reflexivity].
      unfold tokens, roster_tokens in Hs. destruct last_name; discriminate Hs. }
    rewrite Hne, (split_join_tokens tokens Htok).
    unfold tokens, roster_tokens.
    rewrite (split_name_data_app last_name comma_token _ Hlast Hcomma).
    rewrite (find_student_id_app (first :: first_name) sid _ 0 Hfirst Hsid).
    replace (0 + Z.of_nat (length (first :: first_name)))%Z
      with (Z.of_nat (length (first :: first_name))) by lia.
    assert (Hpos : (1 <=? Z.of_nat (length (first :: first_name)))%Z = true).
    { apply Z.leb_le. cbn [length]. lia. }
    rewrite Hpos, Nat2Z.id.
    rewrite drop_app_length, take_app_length.
    assert (Hname : _normalize_name
                      (Str.join " " (last_name ++ [comma_token]) +:+ " "
                       +:+ Str.join " " (first :: first_name)) = n).
    { rewrite <- (join_app " " (last_name ++ [comma_token]) first first_name)
        by (destruct last_name; discriminate).
      rewrite <- app_assoc. cbn [app].
      change (last_name ++ comma_token :: first :: first_name)%list
        with (roster_name last_name comma_token (first :: first_name)).
      rewrite normalize_tokens, split_join_tokens; [reflexivity|].
      unfold tokens, roster_tokens in Htok. unfold roster_name.
      apply forallb_app_iff in Htok as [Hl Hr]. apply forallb_app_iff. split; [exact Hl|].
      cbn [forallb] in Hr. apply andb_true_iff in Hr as [Hc Hr]. cbn [forallb].
      rewrite Hc. cbn [andb].
      change (first :: first_name ++ sid :: g :: reading_status :: math_status :: extra)%list
        with ((first :: first_name) ++ sid :: g :: reading_status :: math_status :: extra)%list
        in Hr.
      apply forallb_app_iff in Hr as [Hr _]. exact Hr. }
    rewrite Hname. reflexivity. }
  split; [exact Hline|].
  rewrite Hline. destruct (pdf_store_stored p n sid g reading_status math_status) as [Hd _].
  rewrite Hd. apply lookup_insert_eq.
Qed.

Lemma roster_line_round_trip_witness :
  parse_aig_line (new_processor example_config) "de la CRUZ, maria jose 12345678 5 ag - x"
  = pdf_store (new_processor example_config) "De La Cruz, Maria Jose" "12345678" "5" "ag" "-"
  ∧ student_details
      (parse_aig_line (new_processor example_config)
                      "de la CRUZ, maria jose 12345678 5 ag - x")
      !! "De La Cruz, Maria Jose"
    = Some (StudentInfo "De La Cruz, Maria Jose" "12345678" "5" true false).
Proof.
  apply (roster_line_round_trip (new_processor example_config) ["de"; "la"] "CRUZ," "maria"
           ["jose"] "12345678" "5" "ag" "-" ["x"]); vm_compute; reflexivity.
Defined.

(** X11: a line none of whose tokens is a number of 8 digits or more
    changes nothing: no record, no name in the index, no log line. *)
Theorem line_without_id_is_ignored (p : processor) (raw : string) :
  forallb (λ t, negb (is_student_id t)) (Str.split raw) = true →
  parse_aig_line p raw = p.
Proof.
  intros H. unfold parse_aig_line.
  destruct (Str.is_empty _); [reflexivity|].
  destruct (_ || _); [reflexivity|].
  destruct (Str.contains _ ","); [|reflexivity].
  rewrite split_strip.
  destruct (split_name_data_suffix (Str.split raw)) as [skipped Hs].
  destruct (split_name_data (Str.split raw)) as [name_parts data_parts].
  cbn [snd] in Hs. rewrite Hs in H. apply forallb_app_iff in H as [_ H].
  rewrite (find_student_id_none data_parts 0); [reflexivity|].
  apply Forall_forall. intros t Ht. rewrite forallb_forall in H.
  apply negb_true_iff, H. apply list_elem_of_In, Ht.
Qed.

Lemma line_without_id_is_ignored_witness :
  parse_aig_line (new_processor example_config) "Smith, John 1234567 3 AIG AIG"
  = new_processor example_config.
Proof.
  apply (line_without_id_is_ignored (new_processor example_config)
           "Smith, John 1234567 3 AIG AIG").
  vm_compute. reflexivity.
Defined.

Lemma split_lines_cons s : ∃ l ls, Str.split_lines s = l :: ls.
Proof.
  induction s as [|c s (l & ls & IH)]; [by eexists _, _|].
  cbn [Str.split_lines]. destruct (Char.eqb c "010"); [by eexists _, _|].
  rewrite IH. by eexists _, _.
Qed.

Lemma split_lines_app a b :
  Str.split_lines (a +:+ LF +:+ b) = (Str.split_lines a ++ Str.split_lines b)%list.
Proof.
  induction a as [|c a IH].
  - reflexivity.
  - change (String c a +:+ LF +:+ b) with (String c (a +:+ LF +:+ b)).
    cbn [Str.split_lines]. rewrite IH.
    destruct (Char.eqb c "010"); [reflexivity|].
    destruct (split_lines_cons a) as (l & ls & ->). reflexivity.
Qed.

(** X12: the PDF text is read line by line, in order: reading two texts
    joined by a line feed is reading the first and then the second. *)
Theorem parse_aig_text_by_lines (p : processor) (text1 text2 : string) :
  _parse_aig_text p (text1 +:+ LF +:+ text2)
  = _parse_aig_text (_parse_aig_text p text1) text2.
Proof. unfold _parse_aig_text. rewrite split_lines_app. apply foldl_app. Qed.

End RosterLines.

(** ** Names of the Word tables and names of the roster *)

Section WordNames.

Lemma join_cons_nonempty sep y l :
  l ≠ [] → Str.join sep (y :: l) = y +:+ sep +:+ Str.join sep l.
Proof. destruct l; [done | reflexivity]. Qed.

Lemma join_snoc_comma init x :
  Str.join " " (init ++ [x]) +:+ "," = Str.join " " (init ++ [x +:+ ","]).
Proof.
  induction init as [|y init IH]; [reflexivity|]. cbn [app].
  rewrite !join_cons_nonempty by (destruct init; discriminate).
  rewrite !append_assoc, IH. reflexivity.
Qed.

Lemma no_blank_app a b : no_blank a = true → no_blank b = true → no_blank (a +:+ b) = true.
Proof.
  intros Ha Hb. induction a as [|c a IH]; [exact Hb|].
  cbn [no_blank] in Ha. apply andb_true_iff in Ha as [Hc Ha].
  change (String c a +:+ b) with (String c (a +:+ b)). cbn [no_blank].
  rewrite Hc, (IH Ha). reflexivity.
Qed.

Lemma is_token_comma x : is_token x = true → is_token (x +:+ ",") = true.
Proof.
  intros H. destruct (is_token_cons x H) as (c & r & -> & Hc & Hr).
  change (String c r +:+ ",") with (String c (r +:+ ",")).
  unfold is_token. cbn [Str.is_empty negb no_blank andb]. rewrite Hc. cbn [negb andb].
  apply no_blank_app; [exact Hr | reflexivity].
Qed.

(** X25: a name of a Word table written first name first, with a first
    name of one word, gets the key of the roster line of the same student: the
    title case of the words of the last name, a comma, and the first name.
    (A first name of two words does not: its second word is read as the start
    of the last name.) *)
Theorem word_name_is_roster_name (first : string) (last_init : list string)
    (last_end : string) :
  forallb is_token (first :: last_init ++ [last_end]) = true →
  Str.contains (Str.join " " (first :: last_init ++ [last_end])) "," = false →
  _process_word_name (Str.join " " (first :: last_init ++ [last_end]))
  = Str.title (Str.join " " (roster_name last_init (last_end +:+ ",") [first])).
Proof.
  intros Htok Hcomma. unfold _process_word_name.
  rewrite (strip_join_tokens _ Htok), Hcomma, (split_join_tokens _ Htok).
  assert (Hlen : (2 <=? length (first :: last_init ++ [last_end]))%nat = true).
  { apply Nat.leb_le. cbn [length]. rewrite length_app. cbn [length]. lia. }
  rewrite Hlen.
  assert (Hname : Str.join " " (last_init ++ [last_end]) +:+ ", " +:+ first
                  = Str.join " " (roster_name last_init (last_end +:+ ",") [first])).
  { change (", " +:+ first) with ("," +:+ " " +:+ first).
    rewrite <- append_assoc, join_snoc_comma.
    change first with (Str.join " " [first]) at 1.
    rewrite <- (join_app " " (last_init ++ [last_end +:+ ","]) first [])
      by (destruct last_init; discriminate).
    unfold roster_name. rewrite <- app_assoc. reflexivity. }
  rewrite Hname, normalize_tokens, split_join_tokens; [reflexivity|].
  cbn [forallb] in Htok. apply andb_true_iff in Htok as [Hf Hl].
  apply forallb_app_iff in Hl as [Hi He]. cbn [forallb] in He.
  apply andb_true_iff in He as [He _].
  unfold roster_name. apply forallb_app_iff. split; [exact Hi|].
  cbn [forallb]. rewrite (is_token_comma _ He), Hf. reflexivity.
Qed.

Lemma word_name_is_roster_name_witness :
  _process_word_name "maria de la cruz" = "De La Cruz, Maria".
Proof.
  apply (word_name_is_roster_name "maria" ["de"; "la"] "cruz"); vm_compute; reflexivity.
Defined.

End WordNames.

(** ** Invariants of a run *)

Section Run.

Lemma td_only_classify st s : td_only_students (classify st s).2 = td_only_students s.
Proof. unfold classify. destruct st as [[] []]; reflexivity. Qed.

Lemma total_classify st s : total_students (classify st s).2 = total_students s.
Proof. unfold classify. destruct st as [[] []]; reflexivity. Qed.

Lemma pdf_keeps (I : processor → Prop) env :
  stable I → (∀ p raw, I p → I (parse_aig_line p raw)) →
  keeps I (extract_aig_students_from_pdf env).
Proof.
  intros [Hemit _] Hline p Hp. unfold extract_aig_students_from_pdf.
  destruct (pdf_pages env _) as [pages|e].
  - unfold _parse_aig_text. apply foldl_invariant; [exact Hline | apply Hemit, Hp].
  - apply Hemit, Hemit, Hp.
Qed.

Lemma word_keeps (I : processor → Prop) env :
  stable I → (∀ p cells, I p → I (process_word_row p cells)) →
  keeps I (extract_aig_students_from_word env).
Proof.
  intros [Hemit _] Hrow p Hp. unfold extract_aig_students_from_word.
  destruct (_ || _); [apply Hemit, Hp|].
  destruct (docx_tables env _) as [tables|e]; [|apply Hemit, Hemit, Hp].
  unfold process_word_tables. apply foldl_invariant; [|apply Hemit, Hp].
  intros q rows Hq. unfold process_word_table. apply foldl_invariant; [exact Hrow | exact Hq].
Qed.

Lemma process_sources_keeps (I : processor → Prop) env :
  stable I →
  (∀ p raw, I p → I (parse_aig_line p raw)) →
  (∀ p cells, I p → I (process_word_row p cells)) →
  keeps I (process_sources env).
Proof.
  intros Hst Hline Hrow. unfold keeps, process_sources.
  apply inv_bind; [apply pdf_keeps; assumption | intros _].
  apply inv_bind; [apply hoare_attribute | intros n].
  apply inv_bind; [apply inv_logger, Hst | intros _].
  apply inv_bind; [apply hoare_attribute | intros n'].
  apply inv_bind; [apply inv_logger, Hst | intros _].
  apply inv_bind; [apply word_keeps; assumption | intros _].
  apply inv_bind; [apply hoare_attribute | intros m].
  apply inv_bind; [apply inv_logger, Hst | intros _].
  apply inv_bind; [apply hoare_attribute | intros m'].
  apply inv_logger, Hst.
Qed.

Lemma process_outputs_keeps (I : processor → Prop) env :
  stable I →
  (∀ w g i row st, keeps I (reconcile_row w g i row st)) →
  keeps I (process_outputs env).
Proof.
  intros Hst Hrow.
  apply (process_outputs_rule env I I (λ _, True) (λ _, True)).
  - exact Hst.
  - intros w _. apply Hrow.
  - intros [sheet_name [df|e]] _ p Hp; [split; [exact Hp | auto] | exact Hp].
  - intros p Hp. unfold read_sheets.
    destruct (excel_sheets env _) as [sheets|e]; [|exact Hp].
    split; [exact Hp | apply Forall_forall; auto].
  - intros path p Hp. unfold write_file. destruct (save env path); exact Hp.
Qed.



(** What a row leaves as it is. *)
Lemma row_same_sources w g i row st p :
  same_sources p (reconcile_row w g i row st p).2.
Proof.
  destruct (reconcile_row_effect w g i row st p)
    as [->|(n & status & l & Hc & Hd & Hm & Hr & Hs & _ & _ & _ & Hst)].
  - unfold same_sources. auto 10.
  - cbv zeta in *. unfold same_sources. rewrite Hc, Hd, Hm, Hr, Hs, Hst, td_only_classify.
    auto 10.
Qed.









Lemma same_sources_refl p : same_sources p p.
Proof. unfold same_sources. auto 10. Qed.

Lemma same_sources_trans p q r : same_sources p q → same_sources q r → same_sources p r.
Proof.
  intros (H1 & H2 & H3 & H4 & H5 & H6) (H1' & H2' & H3' & H4' & H5' & H6').
  unfold same_sources. rewrite H1', H2', H3', H4', H5', H6'. auto 10.
Qed.

Lemma same_sources_stable p : stable (same_sources p).
Proof. split; intros; assumption. Qed.

(** X14: reconciling the spreadsheet and writing the reports read the
    sources and never change them: the records, the index, the names seen in
    a source and the TD-only set are after steps 3 to 5 what they were
    before, whether the steps return or raise. *)
Theorem outputs_leave_sources_alone (env : environment) (p : processor) :
  same_sources p (process_outputs env p).2.
Proof.
  assert (Hrow : ∀ w g i row st, keeps (same_sources p) (reconcile_row w g i row st)).
  { intros w g i row st q Hq.
    pose proof (same_sources_trans _ _ _ Hq (row_same_sources w g i row st q)) as H.
    destruct (reconcile_row w g i row st q) as [[st'|e] q']; exact H. }
  pose proof (process_outputs_keeps (same_sources p) env (same_sources_stable p) Hrow p
                (same_sources_refl p)) as H.
  destruct (process_outputs env p) as [[[]|e] p']; exact H.
Qed.

Lemma log_extends_refl p : log_extends p p.
Proof. exists []. symmetry. apply app_nil_r. Qed.

Lemma log_extends_trans p q r : log_extends p q → log_extends q r → log_extends p r.
Proof.
  intros [l Hl] [k Hk]. exists (l ++ k)%list. rewrite Hk, Hl. symmetry. apply app_assoc.
Qed.

Lemma log_extends_emit p l m : log_extends p (emit l m p).
Proof. eexists. reflexivity. Qed.

Lemma log_extends_stable p : stable (log_extends p).
Proof.
  split.
  - intros l m q Hq. eapply log_extends_trans; [exact Hq | apply log_extends_emit].
  - intros path w q Hq. exact Hq.
Qed.

Lemma log_extends_pdf_line p q raw : log_extends p q → log_extends p (parse_aig_line q raw).
Proof.
  intros H. eapply log_extends_trans; [exact H|].
  destruct (parse_aig_line_cases q raw) as [-> | (full & sid & g & rs & ms & _ & ->)];
    [apply log_extends_refl|].
  unfold pdf_store. destruct (pdf_td_only rs ms); eexists; reflexivity.
Qed.

Lemma log_extends_word_row p q cells :
  log_extends p q → log_extends p (process_word_row q cells).
Proof.
  intros H. eapply log_extends_trans; [exact H|].
  destruct (process_word_row_cases q cells) as [-> | (t & rt & mt & ->)];
    [apply log_extends_refl|].
  unfold word_store. destruct (word_td_only rt mt); eexists; reflexivity.
Qed.

Lemma row_log_extends p w g i row st : keeps (log_extends p) (reconcile_row w g i row st).
Proof.
  intros q Hq.
  assert (H : log_extends p (reconcile_row w g i row st q).2).
  { eapply log_extends_trans; [exact Hq|].
    destruct (reconcile_row_effect w g i row st q)
      as [->|(n & status & l & _ & _ & _ & _ & _ & _ & _ & Hl & _)];
      [apply log_extends_refl|].
    exists l. exact Hl. }
  destruct (reconcile_row w g i row st q) as [[st'|e] q']; exact H.
Qed.

(** The invariant of the run for the log: the configuration is kept and the
    log grows at its end. *)
Lemma log_invariant_stable p : stable (λ q, cfg q = cfg p ∧ log_extends p q).
Proof.
  split.
  - intros l m q [Hc Hl]. split; [exact Hc | apply log_extends_stable, Hl].
  - intros path w q [Hc Hl]. split; [exact Hc | exact Hl].
Qed.

Lemma process_steps_log env p :
  hoare (λ q, cfg q = cfg p ∧ log_extends p q) (process_steps env)
        (λ _ q, log_extends p q ∧ last_record q = Some (done_record (cfg p)))
        (log_extends p).
Proof.
  set (I := λ q, cfg q = cfg p ∧ log_extends p q).
  assert (Hst : stable I) by apply log_invariant_stable.
  assert (Hline : ∀ q raw, I q → I (parse_aig_line q raw)).
  { intros q raw [Hc Hl]. split; [|apply log_extends_pdf_line, Hl].
    rewrite parse_aig_line_cfg. exact Hc. }
  assert (Hword : ∀ q cells, I q → I (process_word_row q cells)).
  { intros q cells [Hc Hl]. split; [|apply log_extends_word_row, Hl].
    destruct (process_word_row_cases q cells) as [-> | (t & rt & mt & ->)]; [exact Hc|].
    unfold word_store. destruct (word_td_only rt mt); exact Hc. }
  assert (Hrow : ∀ w g i row st, keeps I (reconcile_row w g i row st)).
  { intros w g i row st q [Hc Hl].
    pose proof (row_log_extends p w g i row st q Hl) as H1.
    pose proof (row_same_sources w g i row st q) as (H2 & _).
    destruct (reconcile_row w g i row st q) as [[st'|e] q']; simpl in H2;
      (split; [congruence | exact H1]). }
  assert (Hwrite : ∀ path, hoare I (write_file env path) (λ _, I) I).
  { intros path q Hq. unfold write_file. destruct (save env path); exact Hq. }
  assert (Hupd : hoare I (update_excel_with_aig_data env) (λ _, I) I).
  { apply (update_excel_rule env I I (λ _, True) (λ _, True)).
    - exact Hst.
    - intros w _. apply Hrow.
    - intros [sheet_name [df|e]] _ q Hq; [split; [exact Hq | auto] | exact Hq].
    - intros q Hq. unfold read_sheets.
      destruct (excel_sheets env _) as [sheets|e]; [|exact Hq].
      split; [exact Hq | apply Forall_forall; auto].
    - exact Hwrite. }
  apply (hoare_weaken I I _ (λ _ q, I q ∧ last_record q = Some (done_record (cfg p))) _ I).
  - unfold process_steps, process_outputs.
    eapply hoare_bind; [apply process_sources_keeps; assumption | intros ?].
    eapply hoare_bind; [exact Hupd | intros ?].
    eapply hoare_bind;
      [apply (generate_missing_students_report_rule env I I Hst Hwrite) | intros ?].
    eapply hoare_bind; [apply (print_statistics_rule env I I Hst) | intros ?].
    eapply hoare_bind; [apply inv_logger, Hst | intros ?].
    intros q [Hc Hl]. cbn. split; [split; [exact Hc|]|].
    + eapply log_extends_trans; [exact Hl | apply log_extends_emit].
    + unfold last_record, done_record. cbn. rewrite last_snoc, Hc. reflexivity.
  - auto.
  - intros _ q [[_ Hl] Hlast]. split; assumption.
  - intros q [_ Hl]. exact Hl.
Qed.

(** X15: the log of a run is only added to: it is the log before the run,
    then the starting line, then the lines of the run; and its last line is the
    completion line with the path of the updated workbook when the run returns,
    the error line with the message of the exception when it raises. *)
Theorem run_log (env : environment) (p : processor) :
  (∃ l, log (process env p).2 = (log p ++ start_record :: l)%list)
  ∧ last_record (process env p).2
    = Some (match (process env p).1 with
            | Ok _ => done_record (cfg p)
            | Raise e => failed_record e
            end).
Proof.
  set (p0 := emit INFO "Starting AIG Class List Processing..." p).
  assert (H0 : cfg p0 = cfg p0 ∧ log_extends p0 p0)
    by (split; [reflexivity | apply log_extends_refl]).
  pose proof (process_steps_log env p0 p0 H0) as H.
  unfold process. fold p0.
  destruct (process_steps env p0) as [[[]|e] p']; cbn.
  - destruct H as [[l Hl] Hlast]. split; [|exact Hlast].
    exists l. rewrite Hl. unfold p0. cbn. rewrite <- app_assoc. reflexivity.
  - destruct H as [l Hl]. split.
    + exists (l ++ [failed_record e])%list. rewrite Hl. unfold p0. cbn.
      rewrite <- !app_assoc. reflexivity.
    + unfold last_record. cbn. apply last_snoc.
Qed.

(** X16: a PDF file that cannot be read ends the run at once: the
    exception is raised again, the Word document and the spreadsheet are not
    read, nothing is saved, and the run leaves four log lines behind. *)
Theorem pdf_failure_is_fatal (env : environment) (p : processor) (e : string) :
  pdf_pages env (pdf_file_path (cfg p)) = Raise e →
  process env p
  = (Raise e,
     emit ERROR ("Error during processing: " +:+ e)
       (emit ERROR ("Error reading PDF file: " +:+ e)
          (emit INFO ("Processing PDF file: " +:+ pdf_file_path (cfg p))
             (emit INFO "Starting AIG Class List Processing..." p)))).
Proof.
  intros H. unfold process, process_steps, process_sources, mbind, M_bind.
  unfold extract_aig_students_from_pdf. cbn [cfg emit]. rewrite H. reflexivity.
Qed.

Lemma pdf_failure_is_fatal_witness :
  process example_no_pdf_environment (new_processor example_config)
  = (Raise "No such file or directory",
     emit ERROR "Error during processing: No such file or directory"
       (emit ERROR "Error reading PDF file: No such file or directory"
          (emit INFO "Processing PDF file: roster.pdf"
             (emit INFO "Starting AIG Class List Processing..."
                   (new_processor example_config))))).
Proof.
  apply (pdf_failure_is_fatal example_no_pdf_environment (new_processor example_config)
           "No such file or directory").
  reflexivity.
Defined.

End Run.

(** ** The output sheets *)

Section OutputSheets.


Lemma find_student_stats x g p : stats (_find_student_in_aig x g p).2 = stats p.
Proof. destruct (find_student_effect x g p) as [->|[m ->]]; reflexivity. Qed.







(** *** What a list of students leaves in the two sheets *)









(** X18: a sheet with a single column and a student row cannot be
    reconciled: reading the first name of its first student row raises the
    index error of pandas, before anything is counted or logged, and the
    sheets built so far are lost with it. *)
Theorem narrow_sheet_raises (colors : gmap string string) (out : workbooks)
    (sheet_name : string) (df : dataframe) (p : processor) :
  (3 ≤ length (data df))%nat → (columns df < 2)%nat → student_rows df ≠ [] →
  reconcile_sheet colors out (sheet_name, Ok df) p
  = (Raise "single positional indexer is out-of-bounds", p).
Proof.
  intros Hlen Hcols Hrows.
  unfold reconcile_sheet, mbind, M_bind, lift.
  assert (El : (length (data df) <? 3)%nat = false) by (apply Nat.ltb_ge; exact Hlen).
  rewrite El. cbv zeta.
  assert (Hw : columns df = 1).
  { destruct (columns df) as [|[|k]] eqn:Ec; [|reflexivity|lia].
    exfalso. apply Hrows. unfold student_rows. rewrite Ec. cbn [Nat.min row_values seq map].
    induction (drop 2 (data df)) as [|r l IH]; [reflexivity|]. cbn. exact IH. }
  rewrite Hw in *. cbn [Nat.min].
  destruct (student_rows df) as [|row rows] eqn:Er; [contradiction|].
  cbn [reconcile_rows]. unfold mbind, M_bind, reconcile_row, mbind, M_bind, lift, iloc.
  cbn. reflexivity.
Qed.

Lemma narrow_sheet_raises_witness :
  reconcile_sheet ∅ (Workbooks [] []) ("Room 7", Ok example_narrow_sheet)
                  (new_processor example_config)
  = (Raise "single positional indexer is out-of-bounds", new_processor example_config).
Proof.
  apply (narrow_sheet_raises ∅ (Workbooks [] []) "Room 7" example_narrow_sheet
           (new_processor example_config)).
  - vm_compute. lia.
  - vm_compute. lia.
  - vm_compute. discriminate.
Defined.

End OutputSheets.

(** ** The two workbooks *)

Section Workbooks.





Lemma same_but_log_refl p : same_but_log p p.
Proof. unfold same_but_log. auto 10. Qed.

Lemma find_same_but_log x g g' p q :
  same_but_log p q →
  (_find_student_in_aig x g p).1 = (_find_student_in_aig x g' q).1
  ∧ same_but_log (_find_student_in_aig x g p).2 (_find_student_in_aig x g' q).2.
Proof.
  intros H. pose proof H as (Hc & Hm & Hr & He & Hs & Hst & Hd & Hv).
  unfold _find_student_in_aig. rewrite Hd, Hm, Hr.
  destruct (student_details p !! _normalize_name x) as [info|];
    [|split; [reflexivity | exact H]].
  cbn [fst snd]. split; [reflexivity|].
  destruct g as [g|], g' as [g'|];
    repeat match goal with
           | |- context [if ?b then _ else _] => destruct b
           end; exact H.
Qed.

Lemma row_same_but_log w g g' i row st p q :
  same_but_log p q →
  (reconcile_row w g i row st p).1 = (reconcile_row w g' i row st q).1
  ∧ same_but_log (reconcile_row w g i row st p).2 (reconcile_row w g' i row st q).2.
Proof.
  intros H. unfold reconcile_row, mbind, M_bind, lift.
  destruct (iloc w row 0) as [c0|e]; [|split; [reflexivity | exact H]].
  destruct (iloc w row 1) as [c1|e]; [|split; [reflexivity | exact H]].
  cbv zeta. destruct (is_student_row _ _); [|split; [reflexivity | exact H]].
  unfold modify, find_status, classify_and_count.
  set (full_name := cell_text c0 +:+ ", " +:+ cell_text c1).
  assert (H1 : same_but_log (add_in_excel (_normalize_name full_name) (count_student p))
                            (add_in_excel (_normalize_name full_name) (count_student q))).
  { destruct H as (Hc & Hm & Hr & He & Hs & Hst & Hd & Hv).
    unfold same_but_log. cbn. rewrite Hc, Hm, Hr, He, Hs, Hst, Hd, Hv. auto 10. }
  destruct (find_same_but_log full_name g g' _ _ H1) as [Hval Hsame].
  destruct (_find_student_in_aig full_name g _) as [status p1].
  destruct (_find_student_in_aig full_name g' _) as [status' q1].
  cbn [fst snd] in Hval, Hsame. subst status'.
  pose proof Hsame as (Hc & Hm & Hr & He & Hs & Hst & Hd & Hv). rewrite Hst.
  destruct (classify status (stats p1)) as [[t c] s].
  assert (H2 : same_but_log (with_stats s p1) (with_stats s q1)).
  { unfold same_but_log. cbn. auto 10. }
  destruct (status_math status || status_reading status); split; try reflexivity; exact H2.
Qed.

Lemma rows_same_but_log w g g' rows :
  ∀ i st p q,
    same_but_log p q →
    (reconcile_rows w g i rows st p).1 = (reconcile_rows w g' i rows st q).1
    ∧ same_but_log (reconcile_rows w g i rows st p).2 (reconcile_rows w g' i rows st q).2.
Proof.
  induction rows as [|row rows IH]; intros i st p q H; [split; [reflexivity | exact H]|].
  cbn [reconcile_rows]. unfold mbind, M_bind.
  destruct (row_same_but_log w g g' i row st p q H) as [Hval Hsame].
  destruct (reconcile_row w g i row st p) as [[st1|e] p1];
    destruct (reconcile_row w g' i row st q) as [[st1'|e'] q1];
    cbn [fst snd] in Hval, Hsame; try discriminate Hval.
  - injection Hval as <-. apply IH, Hsame.
  - split; [exact Hval | exact Hsame].
Qed.

(** X20: the grade read from the first row of a sheet has no effect on
    what is written: with any two grades the rows of a sheet give the same
    result, the same rows and fills in both sheets or the same exception, and
    leave states that differ in their log only. *)
Theorem grade_has_no_effect (width : nat) (g g' : option string) (idx : nat)
    (rows : list (list cell)) (st : sheet_state) (p : processor) :
  (reconcile_rows width g idx rows st p).1 = (reconcile_rows width g' idx rows st p).1
  ∧ same_but_log (reconcile_rows width g idx rows st p).2
                 (reconcile_rows width g' idx rows st p).2.
Proof. apply rows_same_but_log, same_but_log_refl. Qed.

End Workbooks.

(** ** The report of the students missing from the spreadsheet *)

Section MissingReport.

Lemma ws_fill_appended r c w : appended (ws_fill r c w) = appended w.
Proof. destruct c; reflexivity. Qed.

Lemma missing_rows_sheet details names :
  ∀ w,
    missing_rows details names w
    = Worksheet (ws_title w) (tabColor w)
                (appended w ++ report_rows details names)
                (fills w ++ report_fills details names (S (length (appended w)))).
Proof.
  induction names as [|n names IH]; intros w; cbn [missing_rows report_rows report_fills].
  - rewrite !app_nil_r. destruct w; reflexivity.
  - destruct (details !! n) as [info|]; [|apply IH].
    unfold missing_row at 1.
    destruct (missing_status info) as [status color]. cbn [fst snd].
    rewrite IH. destruct w as [t tc rows fs].
    destruct color as [c|]; unfold ws_fill, ws_append;
      cbn [ws_title tabColor appended fills];
      rewrite ?length_app, <- ?app_assoc; cbn [length app];
      rewrite ?Nat.add_1_r; reflexivity.
Qed.

Lemma report_rows_names details names :
  (∀ n, In n names → is_Some (details !! n)) →
  map first_cell (report_rows details names) = names
  ∧ ∀ i n, names !! i = Some n →
      ∃ info, details !! n = Some info
              ∧ report_rows details names !! i = Some (missing_row n info).
Proof.
  induction names as [|n names IH]; intros Hall;
    [split; [reflexivity | intros i n Hi; rewrite lookup_nil in Hi; discriminate]|].
  destruct (Hall n (or_introl eq_refl)) as [info Hinfo].
  destruct IH as [IH1 IH2]; [intros m Hm; apply Hall; right; exact Hm|].
  cbn [report_rows]. rewrite Hinfo. cbn [map first_cell missing_row]. rewrite IH1.
  split; [reflexivity|].
  intros [|i] m Hm; cbn in Hm.
  - injection Hm as <-. exists info. split; [exact Hinfo | reflexivity].
  - apply IH2, Hm.
Qed.

Lemma report_fills_rows details names :
  (∀ n, In n names → is_Some (details !! n)) →
  ∀ k r c, In (r, c) (report_fills details names k) →
    ∃ i n info, r = k + i ∧ names !! i = Some n ∧ details !! n = Some info
                ∧ (missing_status info).2 = Some c.
Proof.
  induction names as [|n names IH]; intros Hall k r c Hin; [destruct Hin|].
  destruct (Hall n (or_introl eq_refl)) as [info Hinfo].
  assert (Hrest : ∀ m, In m names → is_Some (details !! m))
    by (intros m Hm; apply Hall; right; exact Hm).
  cbn [report_fills] in Hin. rewrite Hinfo in Hin.
  assert (Hlater : In (r, c) (report_fills details names (S k)) →
                   ∃ i n0 info0, r = k + i ∧ (n :: names) !! i = Some n0
                                 ∧ details !! n0 = Some info0
                                 ∧ (missing_status info0).2 = Some c).
  { intros H. destruct (IH Hrest (S k) r c H) as (i & n0 & info0 & -> & Hi & Hd & Hc).
    exists (S i), n0, info0. split; [lia|]. auto. }
  destruct (missing_status info).2 as [c0|] eqn:Ec; [|apply Hlater, Hin].
  destruct Hin as [[= <- <-]|Hin]; [|apply Hlater, Hin].
  exists 0, n, info. split; [lia|]. auto.
Qed.

Lemma str_le_total : Total str_le.
Proof. intros a b. apply String.leb_total. Qed.

Lemma missing_names_elem p n :
  In n (missing_names p) ↔ n ∈ students_in_sources p ∖ students_in_excel p.
Proof.
  unfold missing_names, sorted. rewrite <- list_elem_of_In.
  rewrite (merge_sort_Permutation str_le). apply elem_of_elements.
Qed.

(** X21: when some student of the sources is missing from the
    spreadsheet and the file can be written, the report is saved as one sheet:
    the header row, then exactly one row for every missing student, in the
    order of the names and without repetition, each row built from the record
    of its student, and every fill placed on the row of a student whose status
    has that colour; the last line logged gives the number of those rows.  The
    premise on the records is the bookkeeping that holds in every state of a
    run. *)
Theorem missing_report (env : environment) (p : processor) :
  dom (student_details p) = students_in_sources p →
  students_in_sources p ∖ students_in_excel p ≠ ∅ →
  save env (missing_students_file (cfg p)) = None →
  ∃ w p',
    generate_missing_students_report env p = (Ok tt, p')
    ∧ saved p' = (saved p ++ [(missing_students_file (cfg p), [w])])%list
    ∧ ws_title w = "Students Not In Excel"
    ∧ map first_cell (appended w) = "Student Name" :: missing_names p
    ∧ Sorted str_le (missing_names p) ∧ NoDup (missing_names p)
    ∧ (∀ n, In n (missing_names p)
            ↔ n ∈ students_in_sources p ∧ n ∉ students_in_excel p)
    ∧ (∀ i n, missing_names p !! i = Some n →
         ∃ info, student_details p !! n = Some info
                 ∧ appended w !! (S i) = Some (missing_row n info))
    ∧ (∀ r c, In (r, c) (fills w) →
         ∃ i n info, r = 2 + i ∧ missing_names p !! i = Some n
                     ∧ student_details p !! n = Some info
                     ∧ (missing_status info).2 = Some c)
    ∧ last_record p'
      = Some (LogRecord INFO ("Found " +:+ Str.of_nat (length (missing_names p))
                              +:+ " students in source documents that are not in Excel")).
Proof.
  intros Hdom Hmissing Hsave.
  assert (Hall : ∀ n, In n (missing_names p) → is_Some (student_details p !! n)).
  { intros n Hn. apply missing_names_elem in Hn. apply elem_of_dom. rewrite Hdom.
    apply elem_of_difference in Hn as [Hn _]. exact Hn. }
  destruct (report_rows_names (student_details p) (missing_names p) Hall) as [Hnames Hrows].
  pose proof (report_fills_rows (student_details p) (missing_names p) Hall 2) as Hfills.
  unfold generate_missing_students_report, mbind, M_bind, logger, modify, attribute.
  cbv beta iota. cbn [students_in_sources students_in_excel emit].
  destruct (decide (students_in_sources p ∖ students_in_excel p = ∅)) as [He|_];
    [contradiction|].
  cbv zeta beta iota. unfold write_file. cbn [cfg emit]. rewrite Hsave.
  unfold mret, M_ret. cbv beta iota. cbn [student_details emit].
  fold (missing_names p). rewrite missing_rows_sheet.
  cbn [ws_title tabColor appended fills length app].
  eexists _, _. split; [reflexivity|]. cbn [saved emit with_saved].
  split; [reflexivity|]. split; [reflexivity|].
  split; [exact (f_equal (cons "Student Name") Hnames)|].
  split; [apply (@Sorted_merge_sort _ str_le _ str_le_total)|].
  split.
  { unfold missing_names, sorted. rewrite (merge_sort_Permutation str_le).
    apply NoDup_elements. }
  split.
  { intros n. rewrite missing_names_elem. clear. set_solver. }
  split; [exact Hrows|]. split; [exact Hfills|].
  assert (Hsize : length (missing_names p)
                  = size (students_in_sources p ∖ students_in_excel p)).
  { unfold missing_names, sorted. rewrite (merge_sort_Permutation str_le). reflexivity. }
  rewrite Hsize. unfold last_record. cbn [log emit with_saved]. apply last_snoc.
Qed.

Lemma missing_report_witness :
  ∃ w p',
    generate_missing_students_report example_environment example_two_students = (Ok tt, p')
    ∧ saved p'
      = (saved example_two_students
         ++ [(missing_students_file (cfg example_two_students), [w])])%list
    ∧ ws_title w = "Students Not In Excel"
    ∧ map first_cell (appended w) = "Student Name" :: missing_names example_two_students
    ∧ Sorted str_le (missing_names example_two_students)
    ∧ NoDup (missing_names example_two_students)
    ∧ (∀ n, In n (missing_names example_two_students)
            ↔ n ∈ students_in_sources example_two_students
              ∧ n ∉ students_in_excel example_two_students)
    ∧ (∀ i n, missing_names example_two_students !! i = Some n →
         ∃ info, student_details example_two_students !! n = Some info
                 ∧ appended w !! (S i) = Some (missing_row n info))
    ∧ (∀ r c, In (r, c) (fills w) →
         ∃ i n info, r = 2 + i ∧ missing_names example_two_students !! i = Some n
                     ∧ student_details example_two_students !! n = Some info
                     ∧ (missing_status info).2 = Some c)
    ∧ last_record p'
      = Some (LogRecord INFO
                ("Found " +:+ Str.of_nat (length (missing_names example_two_students))
                 +:+ " students in source documents that are not in Excel")).
Proof.
  apply (missing_report example_environment example_two_students).
  - apply (proj1 (bool_decide_eq_true
                    (dom (student_details example_two_students)
                     = students_in_sources example_two_students))).
    vm_compute. reflexivity.
  - apply (proj1 (bool_decide_eq_false
                    (students_in_sources example_two_students
                     ∖ students_in_excel example_two_students = ∅))).
    vm_compute. reflexivity.
  - reflexivity.
Defined.

End MissingReport.

(** ** The grade of a classroom *)

Section Grade.

#[local] Ltac by_cases c :=
  destruct c as [[] [] [] [] [] [] [] []]; vm_compute; try reflexivity; try discriminate.

Lemma digit_not_blank c : Char.isdigit c = true → Char.isspace c = false.
Proof. by_cases c. Qed.

Lemma span_digits_spec s :
  s = (span_digits s).1 +:+ (span_digits s).2 ∧ Str.all_digits (span_digits s).1 = true.
Proof.
  induction s as [|c s [IH1 IH2]]; [split; reflexivity|].
  cbn [span_digits]. destruct (Char.isdigit c) eqn:Ec; [|split; reflexivity].
  destruct (span_digits s) as [d r]. cbn [fst snd] in *.
  split; [change (String c s = String c (d +:+ r)); f_equal; exact IH1|].
  cbn [Str.all_digits]. rewrite Ec, IH2. reflexivity.
Qed.

Lemma span_digits_app d rest :
  Str.all_digits d = true → starts_digit rest = false →
  span_digits (d +:+ rest) = (d, rest).
Proof.
  intros Hd Hr. induction d as [|c d IH].
  - change ("" +:+ rest) with rest. destruct rest as [|c r]; [reflexivity|].
    cbn [starts_digit] in Hr. cbn [span_digits]. rewrite Hr. reflexivity.
  - cbn [Str.all_digits] in Hd. apply andb_true_iff in Hd as [Hc Hd].
    change (String c d +:+ rest) with (String c (d +:+ rest)).
    cbn [span_digits]. rewrite Hc, (IH Hd). reflexivity.
Qed.

Lemma lstrip_suffix s : ∃ pre, s = pre +:+ Str.lstrip s.
Proof.
  induction s as [|c s [pre IH]]; [by exists ""|].
  cbn [Str.lstrip]. destruct (Char.isspace c); [|by exists ""].
  exists (String c pre). change (String c s = String c (pre +:+ Str.lstrip s)).
  f_equal. exact IH.
Qed.

Lemma drop_chars_suffix n s : ∃ pre, s = pre +:+ drop_chars n s.
Proof.
  revert s. induction n as [|n IH]; intros s; [by exists ""|].
  destruct s as [|c s]; [by exists ""|]. cbn [drop_chars].
  destruct (IH s) as [pre Hpre]. exists (String c pre).
  change (String c s = String c (pre +:+ drop_chars n s)). f_equal. exact Hpre.
Qed.

Lemma startswith_contains s p : Str.startswith s p = true → Str.contains s p = true.
Proof. intros H. rewrite contains_unfold, H. reflexivity. Qed.

Lemma blanks_then_grade_contains s :
  blanks_then_grade s = true → Str.contains s "grade" = true.
Proof.
  unfold blanks_then_grade. intros H. destruct (lstrip_suffix s) as [pre Hpre].
  rewrite Hpre. apply contains_app_r, startswith_contains, H.
Qed.

Lemma match_number_grade_sound s d :
  match_number_grade s = Some d →
  Str.isdigit d = true ∧ Str.contains s "grade" = true.
Proof.
  unfold match_number_grade.
  destruct (span_digits_spec s) as [Hs Hd].
  destruct (span_digits s) as [d0 r]. cbn [fst snd] in Hs, Hd.
  destruct (Str.is_empty d0) eqn:Ee; [discriminate|].
  assert (Hr : blanks_then_grade (drop_chars 2 r) = true ∨ blanks_then_grade r = true →
               Str.contains s "grade" = true).
  { intros [H|H]; rewrite Hs; apply contains_app_r.
    - destruct (drop_chars_suffix 2 r) as [pre Hpre]. rewrite Hpre.
      apply contains_app_r, blanks_then_grade_contains, H.
    - apply blanks_then_grade_contains, H. }
  assert (Hdigit : Str.isdigit d0 = true) by (unfold Str.isdigit; rewrite Ee, Hd; reflexivity).
  destruct (_ && blanks_then_grade (drop_chars 2 r)) eqn:E1.
  - intros [= <-]. apply andb_true_iff in E1 as [_ E1]. auto.
  - destruct (blanks_then_grade r) eqn:E2; [|discriminate].
    intros [= <-]. auto.
Qed.

Lemma match_grade_number_sound s d :
  match_grade_number s = Some d →
  Str.isdigit d = true ∧ Str.contains s "grade" = true.
Proof.
  unfold match_grade_number. destruct (Str.startswith s "grade") eqn:Es; [|discriminate].
  destruct (span_digits_spec (Str.lstrip (drop_chars 5 s))) as [_ Hd].
  destruct (span_digits _) as [d0 r]. cbn [fst] in Hd.
  destruct (Str.is_empty d0) eqn:Ee; [discriminate|]. intros [= <-].
  split; [unfold Str.isdigit; rewrite Ee, Hd; reflexivity | apply startswith_contains, Es].
Qed.

Lemma search_grade_cons c s :
  search_grade (String c s)
  = match match_number_grade (String c s) with
    | Some d => Some d
    | None =>
        match match_grade_number (String c s) with
        | Some d => Some d
        | None => search_grade s
        end
    end.
Proof. reflexivity. Qed.

(** X22: a grade found in a text is a number, a non-empty run of digits,
    and the text holds the word grade; a text without that word has no
    grade. *)
Theorem grade_is_a_number_beside_the_word (s d : string) :
  search_grade s = Some d →
  Str.isdigit d = true ∧ Str.contains s "grade" = true.
Proof.
  induction s as [|c s IH].
  - cbn. discriminate.
  - rewrite search_grade_cons.
    destruct (match_number_grade (String c s)) as [d1|] eqn:E1.
    + intros [= <-]. apply match_number_grade_sound, E1.
    + destruct (match_grade_number (String c s)) as [d2|] eqn:E2.
      * intros [= <-]. apply match_grade_number_sound, E2.
      * intros H. destruct (IH H) as [Hd Hc]. split; [exact Hd|].
        rewrite contains_unfold, Hc. apply orb_true_r.
Qed.

Lemma grade_is_a_number_beside_the_word_witness :
  Str.isdigit "3" = true ∧ Str.contains "heinze 3rd grade t1" "grade" = true.
Proof.
  apply (grade_is_a_number_beside_the_word "heinze 3rd grade t1" "3").
  vm_compute. reflexivity.
Defined.

Lemma startswith_app_self p x : Str.startswith (p +:+ x) p = true.
Proof. apply startswith_prefix. exists x. reflexivity. Qed.

(** The first position of a text is tried first. *)
Lemma search_grade_here s d :
  match_number_grade s = Some d
  ∨ (match_number_grade s = None ∧ match_grade_number s = Some d) →
  search_grade s = Some d.
Proof.
  destruct s as [|c s].
  - intros [H|[_ H]]; discriminate H.
  - rewrite search_grade_cons. intros [->|[-> ->]]; reflexivity.
Qed.

Lemma lstrip_blanks ws x : all_blank ws = true → Str.lstrip (ws +:+ x) = Str.lstrip x.
Proof.
  induction ws as [|c ws IH]; [reflexivity|]. cbn [all_blank].
  intros [Hc Hws]%andb_true_iff.
  change (String c ws +:+ x) with (String c (ws +:+ x)). cbn [Str.lstrip].
  rewrite Hc. apply IH, Hws.
Qed.

Lemma blanks_then_grade_app ws rest :
  all_blank ws = true → blanks_then_grade (ws +:+ "grade" +:+ rest) = true.
Proof.
  intros H. unfold blanks_then_grade. rewrite (lstrip_blanks ws _ H).
  change (Str.lstrip ("grade" +:+ rest)) with ("grade" +:+ rest).
  apply startswith_app_self.
Qed.

Lemma starts_digit_blanks_grade ws rest :
  all_blank ws = true → starts_digit (ws +:+ "grade" +:+ rest) = false.
Proof.
  destruct ws as [|c ws]; [reflexivity|]. cbn [all_blank].
  intros [Hc _]%andb_true_iff.
  change (Char.isdigit c = false). destruct (Char.isdigit c) eqn:Ed; [|reflexivity].
  rewrite (digit_not_blank c Ed) in Hc. discriminate.
Qed.

Lemma match_number_grade_ordinal d sfx ws rest :
  Str.isdigit d = true → in_list sfx [""; "st"; "nd"; "rd"; "th"] = true →
  all_blank ws = true →
  match_number_grade (d +:+ sfx +:+ ws +:+ "grade" +:+ rest) = Some d.
Proof.
  intros Hd Hsfx Hws. unfold Str.isdigit in Hd. apply andb_true_iff in Hd as [Hne Hd].
  apply negb_true_iff in Hne.
  pose proof (blanks_then_grade_app ws rest Hws) as Hg.
  pose proof (starts_digit_blanks_grade ws rest Hws) as Hnd.
  unfold match_number_grade.
  unfold in_list in Hsfx. cbn [existsb] in Hsfx.
  repeat (apply orb_true_iff in Hsfx as [Hsfx|Hsfx]); try discriminate Hsfx;
    apply String.eqb_eq in Hsfx; subst sfx.
  - change ("" +:+ ws +:+ "grade" +:+ rest) with (ws +:+ "grade" +:+ rest).
    rewrite (span_digits_app d _ Hd Hnd), Hne, Hg.
    destruct (_ && _); reflexivity.
  - rewrite (span_digits_app d ("st" +:+ ws +:+ "grade" +:+ rest) Hd eq_refl), Hne.
    rewrite (startswith_app_self "st" (ws +:+ "grade" +:+ rest)).
    change (drop_chars 2 ("st" +:+ ws +:+ "grade" +:+ rest)) with (ws +:+ "grade" +:+ rest).
    rewrite Hg. reflexivity.
  - rewrite (span_digits_app d ("nd" +:+ ws +:+ "grade" +:+ rest) Hd eq_refl), Hne.
    rewrite (startswith_app_self "nd" (ws +:+ "grade" +:+ rest)), !orb_true_r.
    change (drop_chars 2 ("nd" +:+ ws +:+ "grade" +:+ rest)) with (ws +:+ "grade" +:+ rest).
    rewrite Hg. reflexivity.
  - rewrite (span_digits_app d ("rd" +:+ ws +:+ "grade" +:+ rest) Hd eq_refl), Hne.
    rewrite (startswith_app_self "rd" (ws +:+ "grade" +:+ rest)), !orb_true_r.
    change (drop_chars 2 ("rd" +:+ ws +:+ "grade" +:+ rest)) with (ws +:+ "grade" +:+ rest).
    rewrite Hg. reflexivity.
  - rewrite (span_digits_app d ("th" +:+ ws +:+ "grade" +:+ rest) Hd eq_refl), Hne.
    rewrite (startswith_app_self "th" (ws +:+ "grade" +:+ rest)), !orb_true_r.
    change (drop_chars 2 ("th" +:+ ws +:+ "grade" +:+ rest)) with (ws +:+ "grade" +:+ rest).
    rewrite Hg. reflexivity.
Qed.

Lemma no_digit_suffix a b : no_digit (a +:+ b) = true → no_digit b = true.
Proof.
  induction a as [|c a IH]; [auto|].
  change (String c a +:+ b) with (String c (a +:+ b)). cbn [no_digit].
  intros [_ H]%andb_true_iff. apply IH, H.
Qed.

(** A pattern without digits that starts in [a] and matches [a] followed by a
    digit lies within [a]. *)
Lemma startswith_before_digit a t p :
  no_digit p = true → starts_digit t = true →
  Str.startswith (a +:+ t) p = true → Str.startswith a p = true.
Proof.
  revert p. induction a as [|c a IH]; intros p Hp Ht.
  - change ("" +:+ t) with t. destruct p as [|x p]; [by destruct t|].
    destruct t as [|y t]; [discriminate|]. cbn [Str.startswith starts_digit no_digit] in *.
    intros [Hxy _]%andb_true_iff. apply Ascii.eqb_eq in Hxy. subst y.
    apply andb_true_iff in Hp as [Hx _]. rewrite Ht in Hx. discriminate.
  - change (String c a +:+ t) with (String c (a +:+ t)).
    destruct p as [|x p]; [reflexivity|]. cbn [Str.startswith no_digit] in *.
    apply andb_true_iff in Hp as [_ Hp].
    intros [Hxc H]%andb_true_iff. rewrite Hxc, (IH p Hp Ht H). reflexivity.
Qed.

Lemma search_grade_skip pre tail :
  no_digit pre = true → Str.contains pre "grade" = false → starts_digit tail = true →
  search_grade (pre +:+ tail) = search_grade tail.
Proof.
  intros Hnd Hc Ht. induction pre as [|c pre IH]; [reflexivity|].
  cbn [no_digit] in Hnd. apply andb_true_iff in Hnd as [Hcd Hnd].
  apply negb_true_iff in Hcd.
  rewrite contains_unfold in Hc. apply orb_false_iff in Hc as [Hs Hc].
  change (String c pre +:+ tail) with (String c (pre +:+ tail)).
  rewrite search_grade_cons.
  assert (H1 : match_number_grade (String c (pre +:+ tail)) = None).
  { unfold match_number_grade. cbn [span_digits]. rewrite Hcd. reflexivity. }
  assert (H2 : match_grade_number (String c (pre +:+ tail)) = None).
  { unfold match_grade_number.
    destruct (Str.startswith (String c (pre +:+ tail)) "grade") eqn:E; [|reflexivity].
    change (String c (pre +:+ tail)) with (String c pre +:+ tail) in E.
    rewrite (startswith_before_digit (String c pre) tail "grade" eq_refl Ht E) in Hs.
    discriminate. }
  rewrite H1, H2. apply IH; assumption.
Qed.

(** X23: a number followed by an optional ordinal ending, optional
    blanks and the word grade is the grade of the text, whatever follows, when
    nothing before it holds a digit or the word grade. *)
Theorem ordinal_grade_is_read (before d sfx ws rest : string) :
  no_digit before = true → Str.contains before "grade" = false →
  Str.isdigit d = true → in_list sfx [""; "st"; "nd"; "rd"; "th"] = true →
  all_blank ws = true →
  search_grade (before +:+ d +:+ sfx +:+ ws +:+ "grade" +:+ rest) = Some d.
Proof.
  intros Hb Hc Hd Hsfx Hws.
  assert (Ht : starts_digit (d +:+ sfx +:+ ws +:+ "grade" +:+ rest) = true).
  { unfold Str.isdigit in Hd. destruct d as [|c d]; [discriminate|].
    cbn [Str.is_empty negb andb Str.all_digits] in Hd.
    apply andb_true_iff in Hd as [Hc0 _]. exact Hc0. }
  rewrite (search_grade_skip before _ Hb Hc Ht).
  apply search_grade_here. left. apply match_number_grade_ordinal; assumption.
Qed.

Lemma ordinal_grade_is_read_witness :
  search_grade "heinze 3rd grade t1" = Some "3".
Proof.
  apply (ordinal_grade_is_read "heinze " "3" "rd" " " " t1"); reflexivity.
Defined.

(** X24: the word grade followed by optional blanks and a number gives
    that number as the grade, when the text starts with the word and the
    number ends where the digits end. *)
Theorem grade_then_number_is_read (ws d rest : string) :
  all_blank ws = true → Str.isdigit d = true → starts_digit rest = false →
  search_grade ("grade" +:+ ws +:+ d +:+ rest) = Some d.
Proof.
  intros Hws Hd Hr. unfold Str.isdigit in Hd. apply andb_true_iff in Hd as [Hne Hd].
  apply negb_true_iff in Hne.
  apply search_grade_here. right. split; [reflexivity|].
  unfold match_grade_number.
  rewrite (startswith_app_self "grade" (ws +:+ d +:+ rest)).
  change (drop_chars 5 ("grade" +:+ ws +:+ d +:+ rest)) with (ws +:+ d +:+ rest).
  rewrite (lstrip_blanks ws _ Hws).
  assert (Hl : Str.lstrip (d +:+ rest) = d +:+ rest).
  { destruct d as [|c d]; [discriminate|]. cbn [Str.all_digits] in Hd.
    apply andb_true_iff in Hd as [Hc _].
    change (String c d +:+ rest) with (String c (d +:+ rest)). cbn [Str.lstrip].
    rewrite (digit_not_blank c Hc). reflexivity. }
  rewrite Hl, (span_digits_app d rest Hd Hr), Hne. reflexivity.
Qed.

Lemma grade_then_number_is_read_witness :
  search_grade "grade  5 room 12" = Some "5".
Proof.
  apply (grade_then_number_is_read "  " "5" " room 12"); reflexivity.
Defined.

End Grade.

(** ** The command line entry point *)

Section Main.



End Main.

(** ** The name of a row *)

Section RowName.

Lemma find_student_in_excel x g p :
  students_in_excel (_find_student_in_aig x g p).2 = students_in_excel p.
Proof. destruct (find_student_effect x g p) as [->|[m ->]]; reflexivity. Qed.

(** X27: the helper that builds a name from a row is stricter than the
    row loop of the reconciler: a row it names has both name cells, passes the
    test of the loop, has no header word as first name, and the loop counts
    it, without raising, under the normal form of the very name the helper
    gives. *)
Theorem helper_names_only_counted_rows (row : list cell) (n : string)
    (g : option string) (idx : nat) (st : sheet_state) (p : processor) :
  _construct_full_name_from_excel row = Some n →
  let lastname := cell_text (nth 0 row NaN) in
  let firstname := cell_text (nth 1 row NaN) in
  (2 ≤ length row)%nat
  ∧ n = lastname +:+ ", " +:+ firstname
  ∧ is_student_row lastname firstname = true
  ∧ in_list (Str.upper firstname) ["FIRSTNAME"; "FIRST"] = false
  ∧ ∃ st' p',
      reconcile_row (length row) g idx row st p = (Ok st', p')
      ∧ students_in_excel p' = {[ _normalize_name n ]} ∪ students_in_excel p
      ∧ total_students (stats p') = S (total_students (stats p)).
Proof.
  intros H. cbv zeta. unfold _construct_full_name_from_excel in H.
  destruct (1 <=? length row)%nat eqn:E1; [|discriminate].
  destruct (2 <=? length row)%nat eqn:E2;
    [|destruct (cell_name (nth 0 row NaN)); discriminate].
  apply Nat.leb_le in E2.
  destruct (nth 0 row NaN) as [|s0] eqn:E0; [discriminate|].
  destruct (nth 1 row NaN) as [|s1] eqn:Ec1; [discriminate|].
  cbn [cell_name] in H. cbn [cell_text].
  destruct (negb (Str.is_empty (Str.strip s0)) && negb (Str.is_empty (Str.strip s1))
            && negb (in_list (Str.upper (Str.strip s0)) ["LASTNAME"; "LAST"])) eqn:Eloop;
    [|discriminate].
  destruct (in_list (Str.upper (Str.strip s1)) ["FIRSTNAME"; "FIRST"]) eqn:Efirst;
    [discriminate|].
  cbn [negb andb] in H. injection H as <-.
  split; [exact E2|]. split; [reflexivity|]. split; [exact Eloop|]. split; [reflexivity|].
  unfold reconcile_row, mbind, M_bind, lift, iloc.
  assert (H0 : (0 <? length row)%nat = true) by (apply Nat.ltb_lt; lia).
  assert (H1 : (1 <? length row)%nat = true) by (apply Nat.ltb_lt; lia).
  rewrite H0, H1, E0, Ec1. cbn [cell_text]. cbv zeta.
  unfold is_student_row. rewrite Eloop.
  unfold modify, find_status, classify_and_count.
  set (full_name := Str.strip s0 +:+ ", " +:+ Str.strip s1).
  set (q := add_in_excel (_normalize_name full_name) (count_student p)).
  pose proof (find_student_in_excel full_name g q) as He.
  pose proof (find_student_stats full_name g q) as Hs.
  destruct (_find_student_in_aig full_name g q) as [status q']. cbn [snd] in He, Hs.
  pose proof (total_classify status (stats q')) as Ht.
  destruct (classify status (stats q')) as [[t c] s]. cbn [snd] in Ht.
  destruct (status_math status || status_reading status);
    (eexists _, _; split; [reflexivity|]; cbn [students_in_excel stats with_stats];
     split; [exact He | rewrite Ht, Hs; reflexivity]).
Qed.

Lemma helper_names_only_counted_rows_witness :
  (2 ≤ length [Text "Smith"; Text " John "])%nat
  ∧ "Smith, John" = "Smith" +:+ ", " +:+ "John"
  ∧ is_student_row "Smith" "John" = true
  ∧ in_list (Str.upper "John") ["FIRSTNAME"; "FIRST"] = false
  ∧ ∃ st' p',
      reconcile_row 2 (Some "3") 3 [Text "Smith"; Text " John "]
                    (SheetState (Worksheet "Room 1" None [] []) (Worksheet "Room 1" None [] []) 3)
                    (new_processor example_config) = (Ok st', p')
      ∧ students_in_excel p'
        = {[ _normalize_name "Smith, John" ]} ∪ students_in_excel (new_processor example_config)
      ∧ total_students (stats p') = S (total_students (stats (new_processor example_config))).
Proof.
  apply (helper_names_only_counted_rows [Text "Smith"; Text " John "] "Smith, John"
           (Some "3") 3
           (SheetState (Worksheet "Room 1" None [] []) (Worksheet "Room 1" None [] []) 3)
           (new_processor example_config)).
  vm_compute. reflexivity.
Defined.

End RowName.

(** ** The output directories of a batch *)

Section Batch.

Lemma has_char_app c a b : has_char c (a +:+ b) = has_char c a || has_char c b.
Proof.
  induction a as [|d a IH]; [reflexivity|].
  change (String d a +:+ b) with (String d (a +:+ b)). cbn [has_char].
  rewrite IH. apply orb_assoc.
Qed.

Lemma basename_in dir name :
  has_char "/" name = false → basename (dir +:+ "/" +:+ name) = name.
Proof.
  intros H. induction dir as [|c dir IH].
  - change ("" +:+ "/" +:+ name) with (String "/" name). cbn [basename]. rewrite H.
    reflexivity.
  - change (String c dir +:+ "/" +:+ name) with (String c (dir +:+ "/" +:+ name)).
    cbn [basename]. rewrite has_char_app.
    change (has_char "/" ("/" +:+ name)) with true. rewrite orb_true_r. exact IH.
Qed.

Lemma before_last_dot_none s : has_char "." s = false → before_last_dot s = None.
Proof.
  induction s as [|c s IH]; [reflexivity|]. cbn [has_char before_last_dot].
  intros [Hc Hs]%orb_false_iff. rewrite (IH Hs), Hc. reflexivity.
Qed.

Lemma before_last_dot_ext name ext :
  has_char "." name = false → has_char "." ext = false →
  before_last_dot (name +:+ "." +:+ ext) = Some name.
Proof.
  intros Hn He. induction name as [|c name IH].
  - change ("" +:+ "." +:+ ext) with (String "." ext). cbn [before_last_dot].
    rewrite (before_last_dot_none ext He). reflexivity.
  - cbn [has_char] in Hn. apply orb_false_iff in Hn as [_ Hn].
    change (String c name +:+ "." +:+ ext) with (String c (name +:+ "." +:+ ext)).
    cbn [before_last_dot]. rewrite (IH Hn). reflexivity.
Qed.

Lemma splitext_root_ext name ext :
  plain_name name = true → has_char "." ext = false →
  splitext_root (name +:+ "." +:+ ext) = name.
Proof.
  unfold plain_name. intros [[Hne _]%andb_true_iff Hd%negb_true_iff]%andb_true_iff He.
  unfold splitext_root. rewrite (before_last_dot_ext name ext Hd He).
  destruct name as [|c name]; [discriminate|].
  cbn [has_char] in Hd. apply orb_false_iff in Hd as [Hc _].
  cbn [all_dots]. rewrite Hc. reflexivity.
Qed.

Lemma has_slash_ext name ext :
  plain_name name = true → has_char "/" ext = false →
  has_char "/" (name +:+ "." +:+ ext) = false.
Proof.
  unfold plain_name. intros [[_ Hs%negb_true_iff]%andb_true_iff _]%andb_true_iff He.
  rewrite has_char_app, Hs. change (has_char "/" ("." +:+ ext)) with (has_char "/" ext).
  exact He.
Qed.

Lemma batch_name dir name ext :
  plain_name name = true → plain_name ext = true →
  splitext_root (basename (file_in dir name ext)) = name.
Proof.
  intros Hn He. unfold file_in.
  assert (Hes : has_char "/" ext = false ∧ has_char "." ext = false).
  { unfold plain_name in He. apply andb_true_iff in He as [[_ H1]%andb_true_iff H2].
    split; apply negb_true_iff; assumption. }
  destruct Hes as [Hes Hed].
  rewrite (basename_in dir _ (has_slash_ext name ext Hn Hes)).
  apply splitext_root_ext; assumption.
Qed.

Lemma plain_name_join a b :
  plain_name a = true → plain_name b = true → plain_name (a +:+ "_" +:+ b) = true.
Proof.
  unfold plain_name.
  intros [[Ha1 Ha2%negb_true_iff]%andb_true_iff Ha3%negb_true_iff]%andb_true_iff
         [[_ Hb2%negb_true_iff]%andb_true_iff Hb3%negb_true_iff]%andb_true_iff.
  rewrite !has_char_app, Ha2, Ha3.
  change (has_char "/" ("_" +:+ b)) with (has_char "/" b).
  change (has_char "." ("_" +:+ b)) with (has_char "." b).
  rewrite Hb2, Hb3. destruct a; [discriminate|]. reflexivity.
Qed.

(** X28: the output directory of a combination of a batch does not
    identify the combination: the PDF [x_y] with the spreadsheet [z] and the
    PDF [x] with the spreadsheet [y_z] are given the same directory, so the
    second run writes its three workbooks over those of the first. *)
Theorem batch_output_dirs_collide (dir x y z : string) (word_file : option string) :
  plain_name x = true → plain_name y = true → plain_name z = true →
  let first := Config (file_in dir (x +:+ "_" +:+ y) "pdf") (file_in dir z "xlsx") word_file
                      (batch_output_dir (file_in dir (x +:+ "_" +:+ y) "pdf")
                                        (file_in dir z "xlsx")) in
  let second := Config (file_in dir x "pdf") (file_in dir (y +:+ "_" +:+ z) "xlsx") word_file
                       (batch_output_dir (file_in dir x "pdf")
                                         (file_in dir (y +:+ "_" +:+ z) "xlsx")) in
  output_dir first = output_dir second
  ∧ output_file first = output_file second
  ∧ aig_only_file first = aig_only_file second
  ∧ missing_students_file first = missing_students_file second.
Proof.
  intros Hx Hy Hz first second.
  assert (H : output_dir first = output_dir second).
  { subst first second. cbn [output_dir]. unfold batch_output_dir.
    rewrite (batch_name dir (x +:+ "_" +:+ y) "pdf" (plain_name_join x y Hx Hy) eq_refl).
    rewrite (batch_name dir z "xlsx" Hz eq_refl).
    rewrite (batch_name dir x "pdf" Hx eq_refl).
    rewrite (batch_name dir (y +:+ "_" +:+ z) "xlsx" (plain_name_join y z Hy Hz) eq_refl).
    cbv zeta. rewrite (append_assoc x ("_" +:+ y) ("_" +:+ z)).
    rewrite (append_assoc "_" y ("_" +:+ z)). reflexivity. }
  split; [exact H|].
  unfold output_file, aig_only_file, missing_students_file. rewrite H. auto.
Qed.

Lemma batch_output_dirs_collide_witness :
  output_dir (Config "input/roster_2025.pdf" "input/lists.xlsx" None
                     (batch_output_dir "input/roster_2025.pdf" "input/lists.xlsx"))
  = output_dir (Config "input/roster.pdf" "input/2025_lists.xlsx" None
                       (batch_output_dir "input/roster.pdf" "input/2025_lists.xlsx"))
  ∧ output_file (Config "input/roster_2025.pdf" "input/lists.xlsx" None
                        (batch_output_dir "input/roster_2025.pdf" "input/lists.xlsx"))
    = output_file (Config "input/roster.pdf" "input/2025_lists.xlsx" None
                          (batch_output_dir "input/roster.pdf" "input/2025_lists.xlsx"))
  ∧ aig_only_file (Config "input/roster_2025.pdf" "input/lists.xlsx" None
                          (batch_output_dir "input/roster_2025.pdf" "input/lists.xlsx"))
    = aig_only_file (Config "input/roster.pdf" "input/2025_lists.xlsx" None
                            (batch_output_dir "input/roster.pdf" "input/2025_lists.xlsx"))
  ∧ missing_students_file
      (Config "input/roster_2025.pdf" "input/lists.xlsx" None
              (batch_output_dir "input/roster_2025.pdf" "input/lists.xlsx"))
    = missing_students_file
        (Config "input/roster.pdf" "input/2025_lists.xlsx" None
                (batch_output_dir "input/roster.pdf" "input/2025_lists.xlsx")).
Proof.
  apply (batch_output_dirs_collide "input" "roster" "2025" "lists" None); reflexivity.
Defined.

End Batch.
